(** * Markowitz portfolio optimisation: a shallow embedding

    The development follows [Markowitz/Markowitz min risk.py]:

    - [calculate_returns]        the returns engine (pandas pipeline),
    - [portfolio_volatility],
      [neg_sharpe_ratio]         the two objective functions,
    - [optimize_portfolio]       the call into the SLSQP solver,
    - [plot_efficient_frontier]  the Monte Carlo frontier sampler,
    - [main]                     the pipeline that prints and plots.

    Numbers.  NumPy computes in IEEE binary64.  The embedding keeps the
    special values of that format (the two infinities and NaN) and the rules
    by which they arise and propagate, and idealises everything else: finite
    values are exact reals, so rounding, overflow and the sign of zero are
    abstracted away (a zero divisor counts as [+0.0]).  Where rounding
    decides an outcome, the two objective functions are also given over the
    machine's binary64 numbers (module [binary64]).

    Collaborators.  The price download, the SLSQP solver, the random
    generator and matplotlib are not part of the repository; they appear as
    section variables or as recorded events. *)

From Stdlib Require Import Reals Lra Lia String Ascii Bool Arith ZArith List.
From Stdlib Require PrimFloat Uint63.
Import ListNotations.

Local Open Scope R_scope.
Local Open Scope string_scope.
Local Open Scope list_scope.

(** ** Python outcomes: a value is returned or an exception is raised *)

Inductive outcome (A : Type) : Type :=
| Returned (a : A)
| Raised (exception : string).

Arguments Returned {A} a.
Arguments Raised {A} exception.

Definition bind {A B : Type} (m : outcome A) (k : A -> outcome B) : outcome B :=
  match m with
  | Returned a => k a
  | Raised e => Raised e
  end.

Notation "x <- m ;; k" := (bind m (fun x => k))
  (at level 61, m at next level, right associativity).


(** ** binary64 values, idealised *)

Inductive float64 : Type :=
| Fin (x : R)
| PInf
| NInf
| NaN.

Definition isnan (v : float64) : bool :=
  match v with NaN => true | _ => false end.

Definition notna (v : float64) : bool := negb (isnan v).

(** Sign of a real, and of a float64 that is not NaN. *)
Definition Rsgn (x : R) : comparison :=
  match total_order_T x 0 with
  | inleft (left _) => Lt
  | inleft (right _) => Eq
  | inright _ => Gt
  end.

Definition sgn_mul (a b : comparison) : comparison :=
  match a, b with
  | Eq, _ | _, Eq => Eq
  | Lt, Lt | Gt, Gt => Gt
  | Lt, Gt | Gt, Lt => Lt
  end.

(** The infinity of a given sign; the sign [Eq] stands for the invalid
    operations [0 * inf] and [0 / 0], whose result is NaN. *)
Definition inf_of_sign (s : comparison) : float64 :=
  match s with Gt => PInf | Lt => NInf | Eq => NaN end.

Definition sgn (v : float64) : comparison :=
  match v with
  | Fin x => Rsgn x
  | PInf => Gt
  | NInf => Lt
  | NaN => Eq
  end.

Definition fneg (a : float64) : float64 :=
  match a with
  | Fin x => Fin (- x)
  | PInf => NInf
  | NInf => PInf
  | NaN => NaN
  end.

Definition fadd (a b : float64) : float64 :=
  match a, b with
  | NaN, _ | _, NaN => NaN
  | Fin x, Fin y => Fin (x + y)
  | PInf, NInf | NInf, PInf => NaN
  | PInf, _ | _, PInf => PInf
  | NInf, _ | _, NInf => NInf
  end.

Definition fsub (a b : float64) : float64 := fadd a (fneg b).

Definition fmul (a b : float64) : float64 :=
  match a, b with
  | NaN, _ | _, NaN => NaN
  | Fin x, Fin y => Fin (x * y)
  | _, _ => inf_of_sign (sgn_mul (sgn a) (sgn b))
  end.

(** Division as NumPy performs it on float64 scalars: a zero divisor raises
    nothing (NumPy only warns) and yields an infinity, or NaN for [0 / 0]. *)
Definition fdiv (a b : float64) : float64 :=
  match a, b with
  | NaN, _ | _, NaN => NaN
  | Fin x, Fin y =>
      if Req_dec_T y 0 then inf_of_sign (Rsgn x) else Fin (x / y)
  | Fin _, _ => Fin 0
  | _, Fin y =>
      inf_of_sign (sgn_mul (sgn a) (if Req_dec_T y 0 then Gt else Rsgn y))
  | _, _ => NaN
  end.

(** [np.sqrt]: NaN on a negative argument (again only a warning). *)
Definition np_sqrt (a : float64) : float64 :=
  match a with
  | Fin x => if Rlt_dec x 0 then NaN else Fin (sqrt x)
  | PInf => PInf
  | NInf => NaN
  | NaN => NaN
  end.

Definition of_nat (n : nat) : float64 := Fin (INR n).

(** ** NumPy sums and products *)

Definition np_sum (xs : list float64) : float64 :=
  fold_left fadd xs (Fin 0).

Fixpoint zip_with {A B C : Type} (f : A -> B -> C) (xs : list A) (ys : list B)
  : list C :=
  match xs, ys with
  | x :: xs', y :: ys' => f x y :: zip_with f xs' ys'
  | _, _ => []
  end.

(** The inner product of two arrays of one length. *)
Definition inner (a b : list float64) : float64 :=
  np_sum (zip_with fmul a b).

(** [np.dot] of two one-dimensional arrays; shapes that do not agree raise
    ValueError. *)
Definition np_dot (a b : list float64) : outcome float64 :=
  if Nat.eqb (length a) (length b)
  then Returned (inner a b)
  else Raised "ValueError".

Fixpoint mapM {A B : Type} (f : A -> outcome B) (xs : list A)
  : outcome (list B) :=
  match xs with
  | [] => Returned []
  | x :: xs' => y <- f x ;; ys <- mapM f xs' ;; Returned (y :: ys)
  end.

(** [np.dot] of a two-dimensional array (a list of rows) and a vector.  A
    matrix without rows is taken to have no columns, which is the only such
    shape a covariance matrix can have. *)
Definition np_dot_2d (m : list (list float64)) (v : list float64)
  : outcome (list float64) :=
  match m with
  | [] => if Nat.eqb (length v) 0 then Returned [] else Raised "ValueError"
  | _ => mapM (fun row => np_dot row v) m
  end.

(** ** Objective functions *)

(** [weights.T] of a one-dimensional array is the array itself. *)
Definition T (weights : list float64) : list float64 := weights.

Definition portfolio_volatility
  (weights mean_returns : list float64) (cov_matrix : list (list float64))
  : outcome float64 :=
  cw <- np_dot_2d cov_matrix weights ;;
  q <- np_dot (T weights) cw ;;
  Returned (np_sqrt q).

(** A keyword argument with a default value. *)
Definition keyword {A : Type} (default : A) (given : option A) : A :=
  match given with Some v => v | None => default end.

Definition neg_sharpe_ratio
  (weights mean_returns : list float64) (cov_matrix : list (list float64))
  (risk_free_rate : option float64) : outcome float64 :=
  let risk_free_rate := keyword (Fin (4 / 100)) risk_free_rate in
  portfolio_return <- np_dot weights mean_returns ;;
  cw <- np_dot_2d cov_matrix weights ;;
  q <- np_dot (T weights) cw ;;
  let portfolio_volatility := np_sqrt q in
  Returned (fdiv (fneg (fsub portfolio_return risk_free_rate))
                 portfolio_volatility).

(** ** Real-valued vectors and matrices, for stating what is computed *)

Definition Rsum (xs : list R) : R := fold_right Rplus 0 xs.

Definition dotR (a b : list R) : R := Rsum (zip_with Rmult a b).

Definition matvecR (S : list (list R)) (w : list R) : list R :=
  map (fun row => dotR row w) S.

(** The quadratic form [wᵗ·Σ·w]. *)
Definition quadratic_form (S : list (list R)) (w : list R) : R :=
  dotR w (matvecR S w).

Definition lift (xs : list R) : list float64 := map Fin xs.

Definition lift2 (S : list (list R)) : list (list float64) := map lift S.

(** [S] is an [n] by [n] matrix. *)
Definition square (n : nat) (S : list (list R)) : Prop :=
  length S = n /\ Forall (fun row => length row = n) S.


(** ** pandas: the operations [calculate_returns] uses

    A DataFrame of prices is kept column by column: one Series per asset, in
    the order of the (sorted) tickers; row labels (dates) play no role in
    what follows.  A missing cell is NaN. *)

Module pd.

Definition Series : Type := list float64.

Definition DataFrame : Type := list Series.

Definition nrows (df : DataFrame) : nat :=
  match df with
  | [] => 0%nat
  | column :: _ => length column
  end.

(** [Series.pct_change()]: [data / data.shift(1) - 1]; the first period has
    no previous value and is NaN.  (Older pandas versions first pad missing
    cells forward; a table without missing cells is not affected.) *)
Definition pct_change_column (data : Series) : Series :=
  match data with
  | [] => []
  | _ :: later =>
      NaN :: zip_with (fun prev cur => fsub (fdiv cur prev) (Fin 1)) data later
  end.

Definition pct_change (df : DataFrame) : DataFrame :=
  map pct_change_column df.

(** For each row, whether some column is NaN there. *)
Definition nan_rows (df : DataFrame) : list bool :=
  fold_right (fun column acc => zip_with orb (map isnan column) acc)
             (repeat false (nrows df)) df.

Fixpoint drop_rows {A : Type} (drop : list bool) (xs : list A) : list A :=
  match drop, xs with
  | d :: drop', x :: xs' =>
      if d then drop_rows drop' xs' else x :: drop_rows drop' xs'
  | _, _ => []
  end.

(** [DataFrame.dropna()]: every row with a NaN in some column is removed. *)
Definition dropna (df : DataFrame) : DataFrame :=
  map (drop_rows (nan_rows df)) df.

(** [Series.mean()], which skips NaN; the mean of nothing is NaN. *)
Definition mean_column (s : Series) : float64 :=
  let present := filter notna s in
  fdiv (np_sum present) (of_nat (length present)).

Definition mean (df : DataFrame) : Series := map mean_column df.

(** [DataFrame.cov()]: the sample covariance (one delta degree of freedom) of
    every pair of columns over the rows where both are present; the divisor
    [n - 1] is clamped at zero, so fewer than two rows give NaN. *)
Definition cov_pair (a b : Series) : float64 :=
  let both := filter (fun p => notna (fst p) && notna (snd p)) (combine a b) in
  let xs := map fst both in
  let ys := map snd both in
  let n := length both in
  let mean_x := fdiv (np_sum xs) (of_nat n) in
  let mean_y := fdiv (np_sum ys) (of_nat n) in
  fdiv (np_sum (zip_with (fun x y => fmul (fsub x mean_x) (fsub y mean_y))
                         xs ys))
       (of_nat (n - 1)).

(** The result is read as a matrix, row by row. *)
Definition cov (df : DataFrame) : list (list float64) :=
  map (fun a => map (fun b => cov_pair a b) df) df.

(** [series * k] and [frame * k]. *)
Definition scale (s : Series) (k : R) : Series :=
  map (fun x => fmul x (Fin k)) s.

Definition scale_frame (m : list (list float64)) (k : R) : list (list float64) :=
  map (fun row => scale row k) m.

End pd.

(** ** Returns engine *)

Definition calculate_returns (price_data : pd.DataFrame)
  : outcome (pd.Series * list (list float64)) :=
  let returns := pd.dropna (pd.pct_change price_data) in
  let mean_returns := pd.scale (pd.mean returns) 365 in
  let cov_matrix := pd.scale_frame (pd.cov returns) 365 in
  Returned (mean_returns, cov_matrix).

(** ** The returns engine as the specification words it

    Written after the specification, for comparison with
    [calculate_returns]: simple returns [r[t] = p[t] / p[t-1] - 1] from the
    second period on, their sample mean and sample covariance. *)

Fixpoint spec_simple_returns (p : list float64) : list float64 :=
  match p with
  | prev :: (cur :: _) as rest =>
      fsub (fdiv cur prev) (Fin 1) :: spec_simple_returns rest
  | _ => []
  end.

Definition spec_sample_mean (xs : list float64) : float64 :=
  fdiv (np_sum xs) (of_nat (length xs)).

Definition spec_sample_cov (xs ys : list float64) : float64 :=
  fdiv (np_sum (zip_with (fun x y => fmul (fsub x (spec_sample_mean xs))
                                          (fsub y (spec_sample_mean ys)))
                         xs ys))
       (of_nat (length xs - 1)).

Definition spec_annualization : R := 365.

Definition spec_calculate_returns (price_data : list (list float64))
  : list float64 * list (list float64) :=
  let returns := map spec_simple_returns price_data in
  (map (fun r => fmul (spec_sample_mean r) (Fin spec_annualization)) returns,
   map (fun a =>
          map (fun b => fmul (spec_sample_cov a b) (Fin spec_annualization))
              returns)
       returns).

(** The same over the reals, where the mean needs one return and the sample
    covariance two. *)

Fixpoint simple_returnsR (p : list R) : list R :=
  match p with
  | prev :: (cur :: _) as rest => (cur / prev - 1) :: simple_returnsR rest
  | _ => []
  end.

Definition sample_meanR (xs : list R) : R := Rsum xs / INR (length xs).

Definition sample_covR (xs ys : list R) : R :=
  Rsum (zip_with (fun x y => (x - sample_meanR xs) * (y - sample_meanR ys))
                 xs ys)
  / INR (length xs - 1).

(** An aligned price table: every asset has [periods] prices, none missing,
    none zero. *)
Definition price_table (periods : nat) (prices : list (list R)) : Prop :=
  Forall (fun column => length column = periods
                        /\ Forall (fun p => p <> 0) column) prices.

(** No asset has two successive prices equal to zero (the quotient of two
    such prices is [0 / 0]). *)
Fixpoint no_successive_zeros (p : list R) : Prop :=
  match p with
  | prev :: (cur :: _) as rest =>
      (prev <> 0 \/ cur <> 0) /\ no_successive_zeros rest
  | _ => True
  end.

(** An aligned price table: every asset has [periods] prices and none is
    missing; a price may be zero, but not twice in a row. *)
Definition aligned_prices (periods : nat) (prices : list (list R)) : Prop :=
  Forall (fun column => length column = periods
                        /\ no_successive_zeros column) prices.

(** ** The solver's interface: [scipy.optimize.minimize] *)

Record OptimizeResult : Type := {
  x : list float64;
  success : bool;
  fun_ : float64
}.

Record constraint : Type := {
  type : string;
  constraint_fun : list float64 -> float64
}.

(** Python's [/] on its own floats raises on a zero divisor, unlike
    NumPy's. *)
Definition py_truediv (a b : float64) : outcome float64 :=
  match b with
  | Fin y => if Req_dec_T y 0 then Raised "ZeroDivisionError"
             else Returned (fdiv a b)
  | _ => Returned (fdiv a b)
  end.

(** ** Console and plot events, in the order the program issues them *)

Inductive piece : Type :=
| Str (s : string)
| F4 (v : float64).   (* a value formatted as [.4f] *)

Inductive event : Type :=
| print (line : list piece)
| plt_figure
| plt_scatter (xs ys : list float64) (c : option (list float64))
              (label : option string)
| plt_colorbar (label : string)
| plt_xlabel (s : string)
| plt_ylabel (s : string)
| plt_title (s : string)
| plt_legend
| plt_grid
| plt_show.

Definition newline : string := String (ascii_of_nat 10) EmptyString.

(** Array items. *)
Fixpoint list_set {A : Type} (l : list A) (i : nat) (v : A) : option (list A) :=
  match l, i with
  | [], _ => None
  | _ :: l', O => Some (v :: l')
  | a :: l', S i' =>
      match list_set l' i' v with
      | Some r => Some (a :: r)
      | None => None
      end
  end.

Definition getitem {A : Type} (l : list A) (i : nat) : outcome A :=
  match nth_error l i with
  | Some v => Returned v
  | None => Raised "IndexError"
  end.

(** [a[r, c] = v] on a two-dimensional array. *)
Definition setitem2 (a : list (list float64)) (r c : nat) (v : float64)
  : outcome (list (list float64)) :=
  match nth_error a r with
  | None => Raised "IndexError"
  | Some row =>
      match list_set row c v with
      | None => Raised "IndexError"
      | Some row' =>
          match list_set a r row' with
          | Some a' => Returned a'
          | None => Raised "IndexError"
          end
      end
  end.

(** [a[r, :]]. *)
Definition row_of (a : list (list float64)) (r : nat) : list float64 :=
  nth r a [].

Definition np_zeros2 (rows columns : nat) : list (list float64) :=
  repeat (repeat (Fin 0) columns) rows.

Definition np_ones (n : nat) : list float64 := repeat (Fin 1) n.

(** [dict[key]]. *)
Fixpoint dict_getitem {A : Type} (d : list (string * A)) (key : string)
  : outcome A :=
  match d with
  | [] => Raised "KeyError"
  | (k, v) :: d' => if String.eqb k key then Returned v else dict_getitem d' key
  end.

(** [list.sort()] on strings: insertion into ascending order. *)
Fixpoint insert_sorted (s : string) (l : list string) : list string :=
  match l with
  | [] => [s]
  | h :: t => if String.leb s h then s :: l else h :: insert_sorted s t
  end.

Definition sort (l : list string) : list string :=
  fold_right insert_sorted [] l.

Section Program.

(** The collaborators: the state of NumPy's global random generator with its
    Dirichlet draw, the SLSQP solver, the price download and the clock. *)
Variable rng_state : Type.
Variable np_random_dirichlet :
  list float64 -> rng_state -> list float64 * rng_state.
Variable minimize :
  (list float64 -> outcome float64) -> list float64 -> string ->
  list (float64 * float64) -> constraint -> outcome OptimizeResult.
Variable yf_download :
  list string -> string -> string -> outcome (list (string * pd.DataFrame)).
Variable datetime_now : string.

(** What a run can change: the generator's state and what has been printed
    and drawn so far. *)
Record world : Type := {
  rng : rng_state;
  output : list event
}.

(** A statement: it runs in a world, returns or raises, and leaves a world
    behind (what was printed before an exception stays printed). *)
Definition prog (A : Type) : Type := world -> outcome A * world.

Definition ret {A : Type} (a : A) : prog A := fun w => (Returned a, w).

Definition pbind {A B : Type} (m : prog A) (k : A -> prog B) : prog B :=
  fun w =>
    match m w with
    | (Returned a, w') => k a w'
    | (Raised e, w') => (Raised e, w')
    end.

Definition eval {A : Type} (m : outcome A) : prog A := fun w => (m, w).

Definition emit (e : event) : prog unit :=
  fun w => (Returned tt, {| rng := rng w; output := output w ++ [e] |}).

Definition dirichlet (alpha : list float64) : prog (list float64) :=
  fun w =>
    let (sample, next) := np_random_dirichlet alpha (rng w) in
    (Returned sample, {| rng := next; output := output w |}).

Notation "x <~ m ;; k" := (pbind m (fun x => k))
  (at level 61, m at next level, right associativity).
Notation "m ;;; k" := (pbind m (fun _ => k))
  (at level 61, right associativity).

(** [for i in items: state = body i state]. *)
Fixpoint for_each {A S : Type} (body : A -> S -> prog S) (items : list A)
  (state : S) : prog S :=
  match items with
  | [] => ret state
  | i :: rest => s' <~ body i state ;; for_each body rest s'
  end.

Definition get_price_data (tickers : list string) (start_date end_date : string)
  : outcome pd.DataFrame :=
  downloaded <- yf_download tickers start_date end_date ;;
  price_data <- dict_getitem downloaded "Adj Close" ;;
  Returned price_data.

(** ** Constrained optimizer *)

Definition optimize_portfolio (tickers : list string)
  (mean_returns : list float64) (cov_matrix : list (list float64))
  : outcome OptimizeResult :=
  let num_assets := length tickers in
  let args := (mean_returns, cov_matrix) in
  let constraints :=
    {| type := "eq"; constraint_fun := fun x => fsub (np_sum x) (Fin 1) |} in
  let bounds := repeat (Fin 0, Fin 1) num_assets in
  equal_weight <- py_truediv (Fin 1) (of_nat num_assets) ;;
  let initial_weights := repeat equal_weight num_assets in
  optimal <- minimize
    (fun x => neg_sharpe_ratio x mean_returns cov_matrix (Some (Fin (4 / 100))))
    initial_weights "SLSQP" bounds constraints ;;
  Returned optimal.

(** ** Frontier sampler *)

#[warning="-abstract-large-number"]
Definition num_portfolios : nat := 10000.

(** One pass of the sampling loop: it fills column [i] of [results]. *)
Definition frontier_body (mean_returns : list float64)
  (cov_matrix : list (list float64)) (num_assets : nat)
  (i : nat) (results : list (list float64)) : prog (list (list float64)) :=
  weights <~ dirichlet (np_ones num_assets) ;;
  portfolio_return <~ eval (np_dot weights mean_returns) ;;
  cw <~ eval (np_dot_2d cov_matrix weights) ;;
  q <~ eval (np_dot (T weights) cw) ;;
  let portfolio_volatility := np_sqrt q in
  let sharpe_ratio := fdiv portfolio_return portfolio_volatility in
  results <~ eval (setitem2 results 0 i portfolio_return) ;;
  results <~ eval (setitem2 results 1 i portfolio_volatility) ;;
  results <~ eval (setitem2 results 2 i sharpe_ratio) ;;
  ret results.

(** The sampling part of [plot_efficient_frontier]: everything up to the
    final value of [results]. *)
Definition frontier_results (mean_returns : list float64)
  (cov_matrix : list (list float64)) : prog (list (list float64)) :=
  let results := np_zeros2 3 num_portfolios in
  let num_assets := length mean_returns in
  for_each (frontier_body mean_returns cov_matrix num_assets)
           (seq 0 num_portfolios) results.

Definition plot_efficient_frontier (mean_returns : list float64)
  (cov_matrix : list (list float64)) (optimal_weights : list float64)
  : prog unit :=
  results <~ frontier_results mean_returns cov_matrix ;;
  optimal_return <~ eval (np_dot optimal_weights mean_returns) ;;
  cw <~ eval (np_dot_2d cov_matrix optimal_weights) ;;
  q <~ eval (np_dot (T optimal_weights) cw) ;;
  let optimal_volatility := np_sqrt q in
  emit plt_figure ;;;
  emit (plt_scatter (row_of results 1) (row_of results 0)
                    (Some (row_of results 2)) (Some "Losowe portfele")) ;;;
  emit (plt_colorbar "Sharpe Ratio") ;;;
  emit (plt_scatter [optimal_volatility] [optimal_return] None
                    (Some "Optymalny portfel")) ;;;
  emit (plt_xlabel "Ryzyko (Zmienność)") ;;;
  emit (plt_ylabel "Oczekiwany zwrot") ;;;
  emit (plt_title "Efektywna granica portfela Markowitza") ;;;
  emit plt_legend ;;;
  emit plt_grid ;;;
  emit plt_show.

(** What the loop leaves in [results], said without the loop: the
    successive draws of the generator, and the three numbers stored for each
    of them. *)
Fixpoint draws (alpha : list float64) (n : nat) (s : rng_state)
  : list (list float64) * rng_state :=
  match n with
  | O => ([], s)
  | S n' =>
      let (sample, s') := np_random_dirichlet alpha s in
      let (samples, s'') := draws alpha n' s' in
      (sample :: samples, s'')
  end.

Record PortfolioPoint : Type := {
  expectedReturn : float64;
  volatility : float64;
  sharpeRatio : float64
}.

Definition frontier_point (mean_returns : list float64)
  (cov_matrix : list (list float64)) (weights : list float64)
  : PortfolioPoint :=
  let portfolio_return := inner weights mean_returns in
  let portfolio_volatility :=
    np_sqrt (inner weights (map (fun row => inner row weights) cov_matrix)) in
  {| expectedReturn := portfolio_return;
     volatility := portfolio_volatility;
     sharpeRatio := fdiv portfolio_return portfolio_volatility |}.

(** ** The pipeline *)

Definition tickers : list string :=
  sort ["ACX22620-USD"; "BANANA28066-USD"; "GIGA30063-USD"; "SPX28081-USD";
        "COOKIE31838-USD"; "HYPE32196-USD"; "VIRTUAL-USD"; "AIXBT-USD";
        "DOG30933-USD"; "ENA-USD"; "KAS-USD"; "AEVO-USD"; "USUAL-USD";
        "SUI20947-USD"; "TAO22974-USD"; "AAVE-USD"; "PEPE24478-USD";
        "BONK-USD"; "PENDLE-USD"; "SOL-USD"; "ONDO-USD"; "OM-USD";
        "CPOOL-USD"; "TON11419-USD"; "TRX-USD"; "XRP-USD"].

(** One line of the weights report. *)
Definition print_weight (optimal : OptimizeResult) (item : nat * string)
  (_ : unit) : prog unit :=
  let (i, ticker) := item in
  weight <~ eval (getitem (x optimal) i) ;;
  emit (print [Str ticker; Str ": "; F4 weight]).

Definition enumerate {A : Type} (l : list A) : list (nat * A) :=
  combine (seq 0 (length l)) l.

Definition main : prog unit :=
  let start_date := "2024-11-12" in
  let end_date := datetime_now in
  price_data <~ eval (get_price_data tickers start_date end_date) ;;
  returns <~ eval (calculate_returns price_data) ;;
  let (mean_returns, cov_matrix) := returns in
  optimal <~ eval (optimize_portfolio tickers mean_returns cov_matrix) ;;
  emit (print [Str "Optymalne wagi portfela:"]) ;;;
  for_each (print_weight optimal) (enumerate tickers) tt ;;;
  optimal_return <~ eval (np_dot (x optimal) mean_returns) ;;
  optimal_volatility <~
    eval (portfolio_volatility (x optimal) mean_returns cov_matrix) ;;
  emit (print [Str (newline ++ "Oczekiwany zwrot: ")%string; F4 optimal_return]) ;;;
  emit (print [Str "Ryzyko (zmienność): "; F4 optimal_volatility]) ;;;
  emit (plt_scatter [optimal_volatility] [optimal_return] None None) ;;;
  emit (plt_title "Optymalizacja portfela") ;;;
  emit (plt_xlabel "Ryzyko (zmienność)") ;;;
  emit (plt_ylabel "Oczekiwany zwrot") ;;;
  emit plt_grid ;;;
  emit plt_show ;;;
  let optimal_weights := x optimal in
  plot_efficient_frontier mean_returns cov_matrix optimal_weights.

End Program.

Arguments rng {rng_state} w.
Arguments output {rng_state} w.
Arguments Build_world {rng_state} rng output.
Arguments ret {rng_state A} a _.
Arguments pbind {rng_state A B} m k _.
Arguments eval {rng_state A} m _.
Arguments emit {rng_state} e _.
Arguments dirichlet {rng_state} np_random_dirichlet alpha _.
Arguments for_each {rng_state A S} body items state.
Arguments frontier_body {rng_state} np_random_dirichlet.
Arguments frontier_results {rng_state} np_random_dirichlet.
Arguments plot_efficient_frontier {rng_state} np_random_dirichlet.
Arguments draws {rng_state} np_random_dirichlet.
Arguments print_weight {rng_state} optimal item _.
Arguments main {rng_state} np_random_dirichlet minimize yf_download
  datetime_now.

(** A Dirichlet draw has as many components as its parameter. *)
Definition dimension_preserving {rng_state : Type}
  (np_random_dirichlet : list float64 -> rng_state -> list float64 * rng_state)
  : Prop :=
  forall alpha s, length (fst (np_random_dirichlet alpha s)) = length alpha.

(** ** Concrete collaborators

    Instances of the collaborators at which the statements below are
    evaluated: a solver that gives up at its starting point, one that
    raises as soon as it is called and one that evaluates its constraint, a
    download of three equal prices per ticker, a download without an
    [Adj Close] table, and a generator whose successive draws walk through
    the vertices of the simplex. *)

Definition stalled_minimize (objective : list float64 -> outcome float64)
  (x0 : list float64) (method : string) (bounds : list (float64 * float64))
  (constraints : constraint) : outcome OptimizeResult :=
  Returned {| x := x0; success := false; fun_ := NaN |}.

Definition flat_download (names : list string) (start_date end_date : string)
  : outcome (list (string * pd.DataFrame)) :=
  Returned [("Adj Close", map (fun _ => [Fin 1; Fin 1; Fin 1]) names)].

(** A solver that only reports that it has been called. *)
Definition refusing_minimize (objective : list float64 -> outcome float64)
  (x0 : list float64) (method : string) (bounds : list (float64 * float64))
  (constraints : constraint) : outcome OptimizeResult :=
  Raised "SolverCalled".

(** A solver that stays at its starting point and reports the value of its
    constraint at the point (3, 4). *)
Definition probing_minimize (objective : list float64 -> outcome float64)
  (x0 : list float64) (method : string) (bounds : list (float64 * float64))
  (constraints : constraint) : outcome OptimizeResult :=
  Returned {| x := x0; success := false;
              fun_ := constraint_fun constraints [Fin 3; Fin 4] |}.

Definition empty_download (names : list string) (start_date end_date : string)
  : outcome (list (string * pd.DataFrame)) :=
  Returned [].

Definition vertex (n k : nat) : list float64 :=
  map (fun i => if Nat.eqb i (k mod n) then Fin 1 else Fin 0) (seq 0 n).

Definition vertex_gen (alpha : list float64) (s : nat) : list float64 * nat :=
  (vertex (length alpha) s, S s).

(** A statement only ever adds to what has been printed and drawn. *)
Definition appends {rng_state A : Type} (m : prog rng_state A) : Prop :=
  forall w, exists rest, output (snd (m w)) = output w ++ rest.

(** What [plot_efficient_frontier] draws for given sampled points and a
    given optimum. *)
Definition frontier_plot (points : list PortfolioPoint)
  (optimum : PortfolioPoint) : list event :=
  [plt_figure;
   plt_scatter (map volatility points) (map expectedReturn points)
               (Some (map sharpeRatio points)) (Some "Losowe portfele");
   plt_colorbar "Sharpe Ratio";
   plt_scatter [volatility optimum] [expectedReturn optimum] None
               (Some "Optymalny portfel");
   plt_xlabel "Ryzyko (Zmienność)";
   plt_ylabel "Oczekiwany zwrot";
   plt_title "Efektywna granica portfela Markowitza";
   plt_legend;
   plt_grid;
   plt_show].

(** The line of the weights report for one ticker. *)
Definition weight_line (item : string * float64) : event :=
  print [Str (fst item); Str ": "; F4 (snd item)].

(** [mean_returns] has [n] entries and [cov_matrix] is [n] by [n]. *)
Definition shaped (n : nat) (mean_returns : list float64)
  (cov_matrix : list (list float64)) : Prop :=
  length mean_returns = n /\ length cov_matrix = n
  /\ Forall (fun row => length row = n) cov_matrix.

(** ** The objective functions in binary64

    The same two functions over the machine's binary64 numbers, with their
    rounding, for inputs on which rounding decides the result.  Sums run
    from left to right. *)

Module binary64.

Definition float : Set := PrimFloat.float.

(** An integer as a binary64 number (exact for the small integers used). *)
Definition of_Z (z : Z) : float :=
  match z with
  | Z0 => PrimFloat.zero
  | Zpos _ => PrimFloat.of_uint63 (Uint63.of_Z z)
  | Zneg p => PrimFloat.opp (PrimFloat.of_uint63 (Uint63.of_Z (Zpos p)))
  end.

(** The fraction [a / b] rounded to binary64, as a decimal literal is. *)
Definition ratio (a b : Z) : float := PrimFloat.div (of_Z a) (of_Z b).

Definition np_sum (xs : list float) : float :=
  fold_left PrimFloat.add xs PrimFloat.zero.

Definition inner (a b : list float) : float :=
  np_sum (zip_with PrimFloat.mul a b).

Definition np_dot (a b : list float) : outcome float :=
  if Nat.eqb (length a) (length b)
  then Returned (inner a b)
  else Raised "ValueError".

Definition np_dot_2d (m : list (list float)) (v : list float)
  : outcome (list float) :=
  match m with
  | [] => if Nat.eqb (length v) 0 then Returned [] else Raised "ValueError"
  | _ => mapM (fun row => np_dot row v) m
  end.

Definition T (weights : list float) : list float := weights.

Definition portfolio_volatility
  (weights mean_returns : list float) (cov_matrix : list (list float))
  : outcome float :=
  cw <- np_dot_2d cov_matrix weights ;;
  q <- np_dot (T weights) cw ;;
  Returned (PrimFloat.sqrt q).

Definition neg_sharpe_ratio
  (weights mean_returns : list float) (cov_matrix : list (list float))
  (risk_free_rate : option float) : outcome float :=
  let risk_free_rate := keyword (ratio 4 100) risk_free_rate in
  portfolio_return <- np_dot weights mean_returns ;;
  cw <- np_dot_2d cov_matrix weights ;;
  q <- np_dot (T weights) cw ;;
  let portfolio_volatility := PrimFloat.sqrt q in
  Returned (PrimFloat.div
              (PrimFloat.opp (PrimFloat.sub portfolio_return risk_free_rate))
              portfolio_volatility).

End binary64.

(** ** Vocabulary for further statements *)

(** Entry [(i, j)] of a matrix, if there is one. *)
Definition entry (m : list (list float64)) (i j : nat) : option float64 :=
  match nth_error m i with
  | Some row => nth_error row j
  | None => None
  end.

(** [cov_matrix] is as wide and as high as [weights] is long. *)
Definition conformable (weights : list float64)
  (cov_matrix : list (list float64)) : Prop :=
  length cov_matrix = length weights
  /\ Forall (fun row => length row = length weights) cov_matrix.


(** * Lemmas *)

(** ** Arithmetic on finite values *)

Lemma Rsgn_pos (x : R) : 0 < x -> Rsgn x = Gt.
Proof.
  intros H. unfold Rsgn.
  destruct (total_order_T x 0) as [[Hlt | Heq] | Hgt]; try reflexivity; lra.
Qed.


Lemma Rsgn_zero : Rsgn 0 = Eq.
Proof.
  unfold Rsgn.
  destruct (total_order_T 0 0) as [[Hlt | Heq] | Hgt]; try reflexivity; lra.
Qed.

Lemma fdiv_fin (x y : R) : y <> 0 -> fdiv (Fin x) (Fin y) = Fin (x / y).
Proof.
  intros H. simpl. destruct (Req_dec_T y 0); [contradiction | reflexivity].
Qed.

Lemma fdiv_by_zero (x : R) : fdiv (Fin x) (Fin 0) = inf_of_sign (Rsgn x).
Proof.
  simpl. destruct (Req_dec_T 0 0) as [_ | H]; [reflexivity | now elim H].
Qed.

Lemma np_sqrt_fin (x : R) : 0 <= x -> np_sqrt (Fin x) = Fin (sqrt x).
Proof.
  intros H. simpl. destruct (Rlt_dec x 0); [lra | reflexivity].
Qed.


(** ** Sums and products of finite values are the real ones *)

Lemma fold_fadd_lift (xs : list R) (a : R) :
  fold_left fadd (lift xs) (Fin a) = Fin (a + Rsum xs).
Proof.
  revert a. induction xs as [| x xs IH]; intros a; simpl.
  - f_equal. lra.
  - rewrite IH. f_equal. lra.
Qed.

Lemma np_sum_lift (xs : list R) : np_sum (lift xs) = Fin (Rsum xs).
Proof.
  unfold np_sum. rewrite fold_fadd_lift. f_equal. lra.
Qed.

Lemma zip_with_fmul_lift (a b : list R) :
  zip_with fmul (lift a) (lift b) = lift (zip_with Rmult a b).
Proof.
  revert b. induction a as [| x a IH]; intros [| y b]; simpl; try reflexivity.
  now rewrite IH.
Qed.

Lemma length_lift (xs : list R) : length (lift xs) = length xs.
Proof. apply length_map. Qed.

Lemma np_dot_lift (a b : list R) :
  length a = length b ->
  np_dot (lift a) (lift b) = Returned (Fin (dotR a b)).
Proof.
  intros H. unfold np_dot, inner. rewrite !length_lift, H, Nat.eqb_refl.
  now rewrite zip_with_fmul_lift, np_sum_lift.
Qed.

Lemma np_dot_mismatch (a b : list float64) :
  length a <> length b -> np_dot a b = Raised "ValueError".
Proof.
  intros H. unfold np_dot.
  destruct (Nat.eqb_spec (length a) (length b)); [contradiction | reflexivity].
Qed.

Lemma mapM_np_dot_lift (S : list (list R)) (w : list R) :
  Forall (fun row => length row = length w) S ->
  mapM (fun row => np_dot row (lift w)) (lift2 S)
  = Returned (lift (matvecR S w)).
Proof.
  induction 1 as [| row S Hrow _ IH]; [reflexivity |].
  change (lift2 (row :: S)) with (lift row :: lift2 S).
  cbn [mapM]. rewrite np_dot_lift by assumption. rewrite IH. reflexivity.
Qed.

Lemma np_dot_2d_lift (S : list (list R)) (w : list R) :
  square (length w) S ->
  np_dot_2d (lift2 S) (lift w) = Returned (lift (matvecR S w)).
Proof.
  intros [Hlen Hrows]. destruct S as [| row S].
  - simpl in *. rewrite length_lift, <- Hlen. reflexivity.
  - change (np_dot_2d (lift2 (row :: S)) (lift w))
      with (mapM (fun r => np_dot r (lift w)) (lift2 (row :: S))).
    now apply mapM_np_dot_lift.
Qed.

Lemma length_matvecR (S : list (list R)) (w : list R) :
  length (matvecR S w) = length S.
Proof. apply length_map. Qed.

(** The quadratic form as the code computes it. *)
Lemma quadratic_form_lift (S : list (list R)) (w : list R) :
  square (length w) S ->
  (cw <- np_dot_2d (lift2 S) (lift w) ;; np_dot (T (lift w)) cw)
  = Returned (Fin (quadratic_form S w)).
Proof.
  intros Hsq. rewrite np_dot_2d_lift by assumption. simpl. unfold T.
  apply np_dot_lift. rewrite length_matvecR. symmetry. apply Hsq.
Qed.


Lemma neg_sharpe_ratio_lift (w mu : list R) (S : list (list R)) (rf : R) :
  length w = length mu ->
  square (length w) S ->
  neg_sharpe_ratio (lift w) (lift mu) (lift2 S) (Some (Fin rf))
  = Returned (fdiv (Fin (- (dotR w mu - rf)))
                   (np_sqrt (Fin (quadratic_form S w)))).
Proof.
  intros Hlen Hsq. unfold neg_sharpe_ratio.
  rewrite np_dot_lift by assumption. simpl bind.
  pose proof (quadratic_form_lift S w Hsq) as H.
  destruct (np_dot_2d (lift2 S) (lift w)) as [cw |]; simpl in *;
    [| discriminate].
  rewrite H. simpl. reflexivity.
Qed.

(** ** The pandas pipeline on an aligned price table *)

Lemma isnan_lift (xs : list R) : map isnan (lift xs) = repeat false (length xs).
Proof.
  induction xs as [| a xs IH]; simpl; [reflexivity | now rewrite IH].
Qed.

Lemma filter_notna_lift (xs : list R) : filter notna (lift xs) = lift xs.
Proof.
  induction xs as [| a xs IH]; simpl; [reflexivity | now rewrite IH].
Qed.

Lemma return_fin (prev cur : R) :
  prev <> 0 ->
  fsub (fdiv (Fin cur) (Fin prev)) (Fin 1) = Fin (cur / prev - 1).
Proof.
  intros H. rewrite fdiv_fin by assumption. simpl. f_equal.
Qed.

Lemma shifted_returns_lift (later : list R) (first : R) :
  Forall (fun p => p <> 0) (first :: later) ->
  zip_with (fun prev cur => fsub (fdiv cur prev) (Fin 1))
           (lift (first :: later)) (lift later)
  = lift (simple_returnsR (first :: later)).
Proof.
  revert first. induction later as [| cur later IH]; intros first H.
  - reflexivity.
  - inversion H as [| ? ? Hfirst Hrest]; subst.
    change (lift (first :: cur :: later))
      with (Fin first :: lift (cur :: later)).
    change (lift (cur :: later)) with (Fin cur :: lift later) at 2.
    cbn [zip_with]. rewrite return_fin by assumption.
    rewrite (IH cur Hrest). reflexivity.
Qed.

Lemma pct_change_column_lift (column : list R) :
  Forall (fun p => p <> 0) column ->
  pd.pct_change_column (lift column)
  = match column with
    | [] => []
    | _ :: _ => NaN :: lift (simple_returnsR column)
    end.
Proof.
  intros H. destruct column as [| first later]; [reflexivity |].
  unfold pd.pct_change_column.
  change (lift (first :: later)) with (Fin first :: lift later) at 1.
  cbv iota beta.
  change (Fin first :: lift later) with (lift (first :: later)).
  now rewrite shifted_returns_lift.
Qed.

Lemma length_simple_returnsR (column : list R) :
  length (simple_returnsR column) = (length column - 1)%nat.
Proof.
  induction column as [| first [| cur later] IH]; try reflexivity.
  change (simple_returnsR (first :: cur :: later))
    with ((cur / first - 1) :: simple_returnsR (cur :: later)).
  simpl length in *. rewrite IH. lia.
Qed.

Lemma spec_simple_returns_lift (column : list R) :
  Forall (fun p => p <> 0) column ->
  spec_simple_returns (lift column) = lift (simple_returnsR column).
Proof.
  induction column as [| first [| cur later] IH]; intros H; try reflexivity.
  inversion H as [| ? ? Hfirst Hrest]; subst.
  change (spec_simple_returns (lift (first :: cur :: later)))
    with (fsub (fdiv (Fin cur) (Fin first)) (Fin 1)
          :: spec_simple_returns (lift (cur :: later))).
  rewrite return_fin by assumption. rewrite (IH Hrest). reflexivity.
Qed.

Lemma zip_orb_first_row (m : nat) (b : bool) :
  zip_with orb (true :: repeat false m) (b :: repeat false m)
  = true :: repeat false m.
Proof.
  simpl. f_equal. induction m as [| m IH]; simpl; [reflexivity | now rewrite IH].
Qed.

Lemma drop_rows_none {A : Type} (xs : list A) :
  pd.drop_rows (repeat false (length xs)) xs = xs.
Proof.
  induction xs as [| a xs IH]; simpl; [reflexivity | now rewrite IH].
Qed.

(** After [pct_change], the rows with a NaN are exactly the first one. *)
Lemma nan_rows_first (m : nat) (returns : list (list R)) (b : bool) :
  Forall (fun r => length r = m) returns ->
  fold_right (fun column acc => zip_with orb (map isnan column) acc)
             (b :: repeat false m)
             (map (fun r => NaN :: lift r) returns)
  = (match returns with [] => b | _ => true end) :: repeat false m.
Proof.
  induction 1 as [| r returns Hr _ IH]; [reflexivity |].
  cbn [map fold_right]. rewrite IH.
  change (map isnan (NaN :: lift r)) with (true :: map isnan (lift r)).
  rewrite isnan_lift, Hr. apply zip_orb_first_row.
Qed.

Lemma dropna_pct_change (periods : nat) (prices : list (list R)) :
  price_table periods prices ->
  pd.dropna (pd.pct_change (lift2 prices))
  = lift2 (map simple_returnsR prices).
Proof.
  intros Hp. destruct periods as [| m].
  - (* no period at all: every column is empty *)
    assert (Hall : pd.pct_change (lift2 prices) = map (fun _ => []) prices).
    { unfold pd.pct_change, lift2. rewrite map_map. apply map_ext_Forall.
      eapply Forall_impl; [| exact Hp]. intros c [Hlen _].
      destruct c; [reflexivity | discriminate]. }
    rewrite Hall. unfold pd.dropna, lift2. rewrite !map_map.
    apply map_ext_Forall. eapply Forall_impl; [| exact Hp].
    intros c [Hlen _]. destruct c; [| discriminate].
    simpl. now destruct (pd.nan_rows _).
  - assert (Hall : pd.pct_change (lift2 prices)
                   = map (fun r => NaN :: lift r) (map simple_returnsR prices)).
    { unfold pd.pct_change, lift2. rewrite !map_map. apply map_ext_Forall.
      eapply Forall_impl; [| exact Hp]. intros c [Hlen Hnz].
      rewrite pct_change_column_lift by assumption.
      destruct c; [discriminate | reflexivity]. }
    assert (Hlen : Forall (fun r => length r = m) (map simple_returnsR prices)).
    { apply Forall_map. eapply Forall_impl; [| exact Hp]. intros c [Hc _].
      rewrite length_simple_returnsR, Hc. lia. }
    rewrite Hall. unfold pd.dropna, pd.nan_rows.
    assert (Hrows : pd.nrows (map (fun r => NaN :: lift r)
                                  (map simple_returnsR prices))
                    = match prices with [] => 0%nat | _ => S m end).
    { destruct prices as [| c prices]; [reflexivity |].
      apply Forall_inv in Hlen. simpl.
      now rewrite length_lift, Hlen. }
    rewrite Hrows. destruct prices as [| c prices]; [reflexivity |].
    change (repeat false (S m)) with (false :: repeat false m).
    rewrite nan_rows_first by assumption.
    unfold lift2. rewrite map_map. apply map_ext_Forall.
    eapply Forall_impl; [| exact Hlen]. intros r Hr.
    cbn [pd.drop_rows]. rewrite <- Hr, <- (length_lift r).
    apply drop_rows_none.
Qed.

Lemma zip_with_lift (f : float64 -> float64 -> float64) (g : R -> R -> R)
  (xs ys : list R) :
  (forall a b, f (Fin a) (Fin b) = Fin (g a b)) ->
  zip_with f (lift xs) (lift ys) = lift (zip_with g xs ys).
Proof.
  intros Hfg. revert ys.
  induction xs as [| a xs IH]; intros [| b ys]; simpl; try reflexivity.
  now rewrite Hfg, IH.
Qed.

Lemma mean_column_lift (xs : list R) :
  pd.mean_column (lift xs) = spec_sample_mean (lift xs).
Proof.
  unfold pd.mean_column. now rewrite filter_notna_lift.
Qed.

Lemma filter_both_lift (xs ys : list R) :
  filter (fun p => notna (fst p) && notna (snd p))
         (combine (lift xs) (lift ys))
  = combine (lift xs) (lift ys).
Proof.
  revert ys. induction xs as [| a xs IH]; intros [| b ys]; simpl;
    try reflexivity.
  now rewrite IH.
Qed.

Lemma map_fst_combine_same {A B : Type} (xs : list A) (ys : list B) :
  length xs = length ys -> map fst (combine xs ys) = xs.
Proof.
  revert ys. induction xs as [| a xs IH]; intros [| b ys] H; simpl in *;
    try reflexivity; try discriminate.
  f_equal. apply IH. lia.
Qed.

Lemma map_snd_combine_same {A B : Type} (xs : list A) (ys : list B) :
  length xs = length ys -> map snd (combine xs ys) = ys.
Proof.
  revert ys. induction xs as [| a xs IH]; intros [| b ys] H; simpl in *;
    try reflexivity; try discriminate.
  f_equal. apply IH. lia.
Qed.

Lemma cov_pair_lift (xs ys : list R) :
  length xs = length ys ->
  pd.cov_pair (lift xs) (lift ys) = spec_sample_cov (lift xs) (lift ys).
Proof.
  intros H. unfold pd.cov_pair, spec_sample_cov, spec_sample_mean.
  rewrite filter_both_lift.
  assert (Hl : length (lift xs) = length (lift ys))
    by now rewrite !length_lift.
  rewrite (map_fst_combine_same _ _ Hl), (map_snd_combine_same _ _ Hl).
  rewrite length_combine, <- Hl, Nat.min_id. reflexivity.
Qed.

Lemma INR_nonzero (n : nat) : (0 < n)%nat -> INR n <> 0.
Proof. intros H. apply not_0_INR. lia. Qed.

Lemma spec_sample_mean_lift (xs : list R) :
  (0 < length xs)%nat ->
  spec_sample_mean (lift xs) = Fin (sample_meanR xs).
Proof.
  intros H. unfold spec_sample_mean, sample_meanR, of_nat.
  rewrite np_sum_lift, length_lift. now apply fdiv_fin, INR_nonzero.
Qed.

Lemma spec_sample_cov_lift (xs ys : list R) :
  length xs = length ys ->
  (2 <= length xs)%nat ->
  spec_sample_cov (lift xs) (lift ys) = Fin (sample_covR xs ys).
Proof.
  intros Hlen H. unfold spec_sample_cov, sample_covR.
  rewrite !spec_sample_mean_lift by lia.
  rewrite (zip_with_lift _
             (fun x y => (x - sample_meanR xs) * (y - sample_meanR ys)));
    [| intros a b; simpl; f_equal ].
  rewrite np_sum_lift, length_lift. unfold of_nat.
  apply fdiv_fin, INR_nonzero. lia.
Qed.

(** The two maps of [calculate_returns], column by column. *)
Lemma calculate_returns_on_returns (m : nat) (returns : list (list R)) :
  Forall (fun r => length r = m) returns ->
  pd.scale (pd.mean (lift2 returns)) 365
  = map (fun r => fmul (spec_sample_mean r) (Fin spec_annualization))
        (lift2 returns)
  /\ pd.scale_frame (pd.cov (lift2 returns)) 365
     = map (fun a =>
              map (fun b => fmul (spec_sample_cov a b) (Fin spec_annualization))
                  (lift2 returns))
           (lift2 returns).
Proof.
  intros Hlen. split.
  - unfold pd.scale, pd.mean, lift2. rewrite !map_map. apply map_ext.
    intros r. now rewrite mean_column_lift.
  - unfold pd.scale_frame, pd.scale, pd.cov, lift2. rewrite !map_map.
    apply map_ext_Forall. eapply Forall_impl; [| exact Hlen]. intros a Ha.
    rewrite !map_map. apply map_ext_Forall.
    eapply Forall_impl; [| exact Hlen]. intros b Hb.
    rewrite cov_pair_lift by congruence. reflexivity.
Qed.

Lemma returns_lengths (periods : nat) (prices : list (list R)) :
  price_table periods prices ->
  Forall (fun r => length r = (periods - 1)%nat) (map simple_returnsR prices).
Proof.
  intros Hp. apply Forall_map. eapply Forall_impl; [| exact Hp].
  intros c [Hc _]. now rewrite length_simple_returnsR, Hc.
Qed.

Lemma spec_returns_lift (periods : nat) (prices : list (list R)) :
  price_table periods prices ->
  map spec_simple_returns (lift2 prices) = lift2 (map simple_returnsR prices).
Proof.
  intros Hp. unfold lift2. rewrite !map_map. apply map_ext_Forall.
  eapply Forall_impl; [| exact Hp]. intros c [_ Hnz].
  now apply spec_simple_returns_lift.
Qed.

Lemma calculate_returns_refines (periods : nat) (prices : list (list R)) :
  price_table periods prices ->
  calculate_returns (lift2 prices)
  = Returned (spec_calculate_returns (lift2 prices)).
Proof.
  intros Hp. unfold calculate_returns, spec_calculate_returns.
  rewrite (dropna_pct_change periods) by assumption.
  rewrite (spec_returns_lift periods) by assumption.
  destruct (calculate_returns_on_returns (periods - 1)
              (map simple_returnsR prices) (returns_lengths _ _ Hp))
    as [Hmean Hcov].
  now rewrite Hmean, Hcov.
Qed.

(** With at least three periods every mean and covariance is a real
    number. *)
Lemma calculate_returns_real (periods : nat) (prices : list (list R)) :
  price_table periods prices ->
  (3 <= periods)%nat ->
  let returns := map simple_returnsR prices in
  calculate_returns (lift2 prices)
  = Returned
      (lift (map (fun r => sample_meanR r * 365) returns),
       lift2 (map (fun a => map (fun b => sample_covR a b * 365) returns)
                  returns)).
Proof.
  intros Hp H3 returns.
  rewrite (calculate_returns_refines periods) by assumption.
  unfold spec_calculate_returns, spec_annualization.
  rewrite (spec_returns_lift periods) by assumption. fold returns.
  pose proof (returns_lengths _ _ Hp) as Hlen. fold returns in Hlen.
  f_equal. f_equal.
  - unfold lift2, lift. rewrite !map_map. apply map_ext_Forall.
    eapply Forall_impl; [| exact Hlen]. intros r Hr. cbv beta in *.
    fold (lift r). rewrite spec_sample_mean_lift by lia. reflexivity.
  - unfold lift2. rewrite !map_map. apply map_ext_Forall.
    eapply Forall_impl; [| exact Hlen]. intros a Ha. cbv beta in *.
    unfold lift at 3. rewrite !map_map. apply map_ext_Forall.
    eapply Forall_impl; [| exact Hlen]. intros b Hb. cbv beta in *.
    rewrite spec_sample_cov_lift by lia. reflexivity.
Qed.

(** ** Price tables that are too short *)

Lemma fdiv_zero_zero : fdiv (Fin 0) (Fin 0) = NaN.
Proof. rewrite fdiv_by_zero, Rsgn_zero. reflexivity. Qed.

Lemma mean_column_empty : pd.mean_column [] = NaN.
Proof. apply fdiv_zero_zero. Qed.

Lemma cov_pair_empty : pd.cov_pair [] [] = NaN.
Proof. apply fdiv_zero_zero. Qed.

Lemma nan_rows_single (df : pd.DataFrame) (b : bool) :
  fold_right (fun column acc => zip_with orb (map isnan column) acc)
             [b] (map (fun _ : pd.Series => [NaN]) df)
  = [match df with [] => b | _ => true end].
Proof.
  induction df as [| c df IH]; [reflexivity |].
  cbn [map fold_right]. rewrite IH. reflexivity.
Qed.

Lemma dropna_pct_change_short (periods : nat) (df : pd.DataFrame) :
  Forall (fun column => length column = periods) df ->
  (periods < 2)%nat ->
  pd.dropna (pd.pct_change df) = map (fun _ => []) df.
Proof.
  intros Hlen Hshort.
  destruct periods as [| [| ?]]; [| | lia].
  - assert (Hall : pd.pct_change df = map (fun _ => []) df).
    { unfold pd.pct_change. apply map_ext_Forall.
      eapply Forall_impl; [| exact Hlen]. intros c Hc.
      destruct c; [reflexivity | discriminate]. }
    rewrite Hall. unfold pd.dropna. rewrite map_map. apply map_ext.
    intros _. now destruct (pd.nan_rows _).
  - assert (Hall : pd.pct_change df = map (fun _ => [NaN]) df).
    { unfold pd.pct_change. apply map_ext_Forall.
      eapply Forall_impl; [| exact Hlen]. intros c Hc.
      destruct c as [| v [| ? ?]]; try discriminate. reflexivity. }
    rewrite Hall. unfold pd.dropna, pd.nan_rows.
    destruct df as [| c df]; [reflexivity |].
    change (pd.nrows (map (fun _ : pd.Series => [NaN]) (c :: df))) with 1%nat.
    change (repeat false 1) with [false].
    rewrite nan_rows_single, map_map. reflexivity.
Qed.

Lemma calculate_returns_short (periods : nat) (df : pd.DataFrame) :
  Forall (fun column => length column = periods) df ->
  (periods < 2)%nat ->
  calculate_returns df
  = Returned (repeat NaN (length df), repeat (repeat NaN (length df)) (length df)).
Proof.
  intros Hlen Hshort. unfold calculate_returns.
  rewrite (dropna_pct_change_short periods) by assumption.
  unfold pd.scale_frame, pd.scale, pd.mean, pd.cov.
  rewrite !map_map. cbv beta.
  rewrite mean_column_empty, cov_pair_empty.
  change (fmul NaN (Fin 365)) with NaN.
  rewrite !map_const. reflexivity.
Qed.

(** ** A constant price gives a row of zeros in the covariance matrix *)






(** ** Running statements *)

Section Running.

Context {rng_state : Type}.

Lemma pbind_returned {A B : Type} (m : prog rng_state A) (k : A -> prog rng_state B)
  (w w' : world rng_state) (a : A) :
  m w = (Returned a, w') -> pbind m k w = k a w'.
Proof. intros H. unfold pbind. now rewrite H. Qed.

Lemma pbind_raised {A B : Type} (m : prog rng_state A) (k : A -> prog rng_state B)
  (w w' : world rng_state) (e : string) :
  m w = (Raised e, w') -> pbind m k w = (Raised e, w').
Proof. intros H. unfold pbind. now rewrite H. Qed.

Lemma pbind_eval {A B : Type} (m : outcome A) (k : A -> prog rng_state B)
  (w : world rng_state) (a : A) :
  m = Returned a -> pbind (eval m) k w = k a w.
Proof. intros H. now apply pbind_returned; unfold eval; rewrite H. Qed.

Lemma pbind_eval_raised {A B : Type} (m : outcome A) (k : A -> prog rng_state B)
  (w : world rng_state) (e : string) :
  m = Raised e -> pbind (eval m) k w = (Raised e, w).
Proof. intros H. now apply pbind_raised; unfold eval; rewrite H. Qed.

End Running.

(** ** Array products and items *)

Lemma np_dot_same (a b : list float64) :
  length a = length b -> np_dot a b = Returned (inner a b).
Proof. intros H. unfold np_dot. now rewrite H, Nat.eqb_refl. Qed.

Lemma mapM_np_dot (m : list (list float64)) (v : list float64) :
  Forall (fun row => length row = length v) m ->
  mapM (fun row => np_dot row v) m = Returned (map (fun row => inner row v) m).
Proof.
  induction 1 as [| row m Hrow _ IH]; [reflexivity |].
  cbn [mapM map]. rewrite np_dot_same by assumption. rewrite IH. reflexivity.
Qed.

Lemma np_dot_2d_shaped (m : list (list float64)) (v : list float64) :
  length m = length v ->
  Forall (fun row => length row = length v) m ->
  np_dot_2d m v = Returned (map (fun row => inner row v) m).
Proof.
  intros Hlen Hrows. destruct m as [| row m].
  - simpl in *. now rewrite <- Hlen.
  - now apply mapM_np_dot.
Qed.

Lemma list_set_app {A : Type} (a z : list A) (old v : A) :
  list_set (a ++ old :: z) (length a) v = Some (a ++ v :: z).
Proof.
  induction a as [| h a IH]; simpl; [reflexivity | now rewrite IH].
Qed.

Lemma setitem2_row0 (a z r1 r2 : list float64) (old v : float64) :
  setitem2 [a ++ old :: z; r1; r2] 0 (length a) v
  = Returned [a ++ v :: z; r1; r2].
Proof. unfold setitem2. cbn [nth_error]. now rewrite list_set_app. Qed.

Lemma setitem2_row1 (a z r0 r2 : list float64) (old v : float64) :
  setitem2 [r0; a ++ old :: z; r2] 1 (length a) v
  = Returned [r0; a ++ v :: z; r2].
Proof. unfold setitem2. cbn [nth_error]. now rewrite list_set_app. Qed.

Lemma setitem2_row2 (a z r0 r1 : list float64) (old v : float64) :
  setitem2 [r0; r1; a ++ old :: z] 2 (length a) v
  = Returned [r0; r1; a ++ v :: z].
Proof. unfold setitem2. cbn [nth_error]. now rewrite list_set_app. Qed.

(** The quadratic form of a portfolio, as every caller computes it. *)
Lemma quadratic_form_shaped (n : nat) (mean_returns : list float64)
  (cov_matrix : list (list float64)) (weights : list float64) :
  shaped n mean_returns cov_matrix ->
  length weights = n ->
  (cw <- np_dot_2d cov_matrix weights ;; np_dot (T weights) cw)
  = Returned (inner weights (map (fun row => inner row weights) cov_matrix)).
Proof.
  intros (Hm & Hc & Hrows) Hw.
  rewrite np_dot_2d_shaped; [| congruence |].
  - simpl. apply np_dot_same. unfold T. rewrite length_map. congruence.
  - eapply Forall_impl; [| exact Hrows]. intros row Hr. simpl in *. congruence.
Qed.

(** ** The sampling loop *)

Section Sampler.

Context {rng_state : Type}.
Variable gen : list float64 -> rng_state -> list float64 * rng_state.
Variable mean_returns : list float64.
Variable cov_matrix : list (list float64).
Variable n : nat.

Hypothesis Hshape : shaped n mean_returns cov_matrix.
Hypothesis Hdim : dimension_preserving gen.

Lemma draw_length (s : rng_state) : length (fst (gen (np_ones n) s)) = n.
Proof. rewrite Hdim. apply repeat_length. Qed.

Lemma dirichlet_run (alpha : list float64) (w : world rng_state) :
  dirichlet gen alpha w
  = (Returned (fst (gen alpha (rng w))),
     {| rng := snd (gen alpha (rng w)); output := output w |}).
Proof. unfold dirichlet. now destruct (gen alpha (rng w)). Qed.

(** One pass stores the point of the next draw in column [i]. *)
Lemma frontier_body_step (a0 a1 a2 z0 z1 z2 : list float64)
  (o0 o1 o2 : float64) (w : world rng_state) :
  length a1 = length a0 ->
  length a2 = length a0 ->
  let weights := fst (gen (np_ones n) (rng w)) in
  let p := frontier_point mean_returns cov_matrix weights in
  frontier_body gen mean_returns cov_matrix n (length a0)
                [a0 ++ o0 :: z0; a1 ++ o1 :: z1; a2 ++ o2 :: z2] w
  = (Returned [a0 ++ expectedReturn p :: z0;
               a1 ++ volatility p :: z1;
               a2 ++ sharpeRatio p :: z2],
     {| rng := snd (gen (np_ones n) (rng w)); output := output w |}).
Proof.
  intros H1 H2 weights p. unfold frontier_body.
  rewrite (pbind_returned _ _ _ _ _ (dirichlet_run (np_ones n) w)).
  fold weights.
  assert (Hw : length weights = n) by apply draw_length.
  destruct Hshape as (Hm & Hc & Hrows).
  rewrite (pbind_eval _ _ _ (inner weights mean_returns))
    by (apply np_dot_same; congruence).
  rewrite (pbind_eval _ _ _ (map (fun row => inner row weights) cov_matrix)).
  2:{ apply np_dot_2d_shaped; [congruence |].
      eapply Forall_impl; [| exact Hrows]. intros row Hr. simpl in *.
      congruence. }
  rewrite (pbind_eval _ _ _
             (inner weights (map (fun row => inner row weights) cov_matrix))).
  2:{ apply np_dot_same. unfold T. rewrite length_map. congruence. }
  cbv zeta.
  rewrite (pbind_eval _ _ _ _ (setitem2_row0 a0 z0 _ _ o0 _)).
  rewrite <- H1.
  rewrite (pbind_eval _ _ _ _ (setitem2_row1 a1 z1 _ _ o1 _)).
  rewrite H1, <- H2.
  rewrite (pbind_eval _ _ _ _ (setitem2_row2 a2 z2 _ _ o2 _)).
  reflexivity.
Qed.

Lemma app_cons_assoc {A : Type} (a : list A) (v : A) (z : list A) :
  a ++ v :: z = (a ++ [v]) ++ z.
Proof. now rewrite <- app_assoc. Qed.

(** [k] passes starting at column [length a0] store the points of the next
    [k] draws, in order, and leave the generator [k] draws further. *)
Lemma frontier_loop (k : nat) :
  forall (a0 a1 a2 : list float64) (w : world rng_state),
    length a1 = length a0 ->
    length a2 = length a0 ->
    let points := map (frontier_point mean_returns cov_matrix)
                      (fst (draws gen (np_ones n) k (rng w))) in
    for_each (frontier_body gen mean_returns cov_matrix n)
             (seq (length a0) k)
             [a0 ++ repeat (Fin 0) k; a1 ++ repeat (Fin 0) k;
              a2 ++ repeat (Fin 0) k] w
    = (Returned [a0 ++ map expectedReturn points;
                 a1 ++ map volatility points;
                 a2 ++ map sharpeRatio points],
       {| rng := snd (draws gen (np_ones n) k (rng w));
          output := output w |}).
Proof.
  induction k as [| k IH]; intros a0 a1 a2 w H1 H2.
  - simpl. unfold ret. now destruct w.
  - cbn [seq repeat for_each draws].
    rewrite (pbind_returned _ _ _ _ _
               (frontier_body_step a0 a1 a2 _ _ _ _ _ _ w H1 H2)).
    set (weights := fst (gen (np_ones n) (rng w))).
    set (p := frontier_point mean_returns cov_matrix weights).
    rewrite (app_cons_assoc a0), (app_cons_assoc a1), (app_cons_assoc a2).
    replace (S (length a0)) with (length (a0 ++ [expectedReturn p]))
      by (rewrite length_app; simpl; lia).
    rewrite IH by (rewrite !length_app; simpl; lia).
    cbn [rng output].
    subst weights p.
    destruct (gen (np_ones n) (rng w)) as [sample s'] eqn:Hgen.
    cbn [fst snd].
    destruct (draws gen (np_ones n) k s') as [samples s''] eqn:Hdraws.
    cbn [fst snd map].
    now rewrite <- !app_assoc.
Qed.

(** The whole sampling part, for any number of portfolios. *)
Lemma frontier_loop_from_zeros (k : nat) (w : world rng_state) :
  let points := map (frontier_point mean_returns cov_matrix)
                    (fst (draws gen (np_ones n) k (rng w))) in
  for_each (frontier_body gen mean_returns cov_matrix n) (seq 0 k)
           (np_zeros2 3 k) w
  = (Returned [map expectedReturn points; map volatility points;
               map sharpeRatio points],
     {| rng := snd (draws gen (np_ones n) k (rng w)); output := output w |}).
Proof.
  exact (frontier_loop k [] [] [] w eq_refl eq_refl).
Qed.

End Sampler.

(** ** Output is only ever extended *)

Section Appending.

Context {rng_state : Type}.

Lemma appends_ret {A : Type} (a : A) : appends (@ret rng_state A a).
Proof. intros w. exists []. simpl. now rewrite app_nil_r. Qed.

Lemma appends_eval {A : Type} (m : outcome A) : appends (@eval rng_state A m).
Proof. intros w. exists []. simpl. now rewrite app_nil_r. Qed.

Lemma appends_emit (e : event) : appends (@emit rng_state e).
Proof. intros w. exists [e]. reflexivity. Qed.

Lemma appends_dirichlet
  (gen : list float64 -> rng_state -> list float64 * rng_state)
  (alpha : list float64) :
  appends (dirichlet gen alpha).
Proof.
  intros w. exists []. unfold dirichlet.
  destruct (gen alpha (rng w)). simpl. now rewrite app_nil_r.
Qed.

Lemma appends_pbind {A B : Type} (m : prog rng_state A)
  (k : A -> prog rng_state B) :
  appends m -> (forall a, appends (k a)) -> appends (pbind m k).
Proof.
  intros Hm Hk w. unfold pbind. destruct (Hm w) as [r1 H1].
  destruct (m w) as [[a | e] w1]; simpl in H1.
  - destruct (Hk a w1) as [r2 H2]. exists (r1 ++ r2).
    now rewrite H2, H1, app_assoc.
  - now exists r1.
Qed.

Lemma appends_for_each {A S : Type} (body : A -> S -> prog rng_state S)
  (items : list A) :
  (forall i s, appends (body i s)) ->
  forall s, appends (for_each body items s).
Proof.
  intros Hbody. induction items as [| i items IH]; intros s; simpl.
  - apply appends_ret.
  - apply appends_pbind; [apply Hbody | exact IH].
Qed.

End Appending.

Create HintDb appends.

#[local] Hint Resolve appends_ret appends_eval appends_emit appends_dirichlet
  : appends.

Ltac appends_step :=
  first [ solve [auto with appends]
        | apply appends_for_each; intros
        | apply appends_pbind; [| intros] ].

Ltac appends_all := repeat (cbv beta zeta; appends_step).

Section Pipeline.

Context {rng_state : Type}.
Variable gen : list float64 -> rng_state -> list float64 * rng_state.
Variable minimize :
  (list float64 -> outcome float64) -> list float64 -> string ->
  list (float64 * float64) -> constraint -> outcome OptimizeResult.
Variable yf_download :
  list string -> string -> string -> outcome (list (string * pd.DataFrame)).
Variable now : string.

Lemma appends_frontier_body (mean_returns : list float64)
  (cov_matrix : list (list float64)) (n i : nat)
  (results : list (list float64)) :
  appends (frontier_body gen mean_returns cov_matrix n i results).
Proof. unfold frontier_body. appends_all. Qed.

Lemma appends_plot_efficient_frontier (mean_returns : list float64)
  (cov_matrix : list (list float64)) (optimal_weights : list float64) :
  appends (plot_efficient_frontier gen mean_returns cov_matrix optimal_weights).
Proof.
  unfold plot_efficient_frontier, frontier_results.
  appends_all.
Qed.

Lemma pbind_emit {B : Type} (e : event) (k : unit -> prog rng_state B)
  (w : world rng_state) :
  pbind (emit e) k w = k tt {| rng := rng w; output := output w ++ [e] |}.
Proof. reflexivity. Qed.

Lemma getitem_app {A : Type} (pre rest : list A) (v : A) :
  getitem (pre ++ v :: rest) (length pre) = Returned v.
Proof.
  unfold getitem. rewrite nth_error_app2 by lia.
  now rewrite Nat.sub_diag.
Qed.

(** The weights loop prints one line per ticker, whatever the solver
    said. *)
Lemma print_weights_run (optimal : OptimizeResult) (names : list string) :
  forall (pre weights : list float64) (w : world rng_state),
    x optimal = pre ++ weights ->
    length weights = length names ->
    for_each (print_weight optimal)
             (combine (seq (length pre) (length names)) names) tt w
    = (Returned tt,
       {| rng := rng w;
          output := output w ++ map weight_line (combine names weights) |}).
Proof.
  induction names as [| name names IH]; intros pre weights w Hx Hlen.
  - simpl. unfold ret. rewrite app_nil_r. now destruct w.
  - destruct weights as [| v weights]; [discriminate |].
    cbn [length seq combine for_each].
    unfold print_weight at 1.
    rewrite (pbind_returned _ _ w
               {| rng := rng w; output := output w ++ [weight_line (name, v)] |}
               tt).
    2:{ rewrite (pbind_eval _ _ _ v) by (rewrite Hx; apply getitem_app).
        reflexivity. }
    replace (S (length pre)) with (length (pre ++ [v]))
      by (rewrite length_app; simpl; lia).
    rewrite (IH (pre ++ [v]) weights).
    + cbn [rng output combine map]. now rewrite <- app_assoc.
    + now rewrite <- app_assoc.
    + simpl in Hlen. lia.
Qed.

(** A failure of the download, of the returns engine or of the optimizer
    ends [main] before anything is printed or drawn. *)
Lemma main_aborts (w : world rng_state) (e : string) :
  (get_price_data yf_download tickers "2024-11-12" now = Raised e
   \/ (exists price_data,
         get_price_data yf_download tickers "2024-11-12" now
         = Returned price_data
         /\ (calculate_returns price_data = Raised e
             \/ exists mean_returns cov_matrix,
                  calculate_returns price_data
                  = Returned (mean_returns, cov_matrix)
                  /\ optimize_portfolio minimize tickers mean_returns cov_matrix
                     = Raised e))) ->
  main gen minimize yf_download now w = (Raised e, w).
Proof.
  intros [Hget | (price_data & Hget & [Hcalc | (m & c & Hcalc & Hopt)])];
    unfold main; cbv zeta.
  - now apply pbind_eval_raised.
  - rewrite (pbind_eval _ _ _ _ Hget). now apply pbind_eval_raised.
  - rewrite (pbind_eval _ _ _ _ Hget), (pbind_eval _ _ _ _ Hcalc).
    now apply pbind_eval_raised.
Qed.

(** Once the solver has returned, the weights report is printed: [main]
    never looks at [success]. *)
Lemma main_reports (w : world rng_state) (price_data : pd.DataFrame)
  (mean_returns : list float64) (cov_matrix : list (list float64))
  (optimal : OptimizeResult) :
  get_price_data yf_download tickers "2024-11-12" now = Returned price_data ->
  calculate_returns price_data = Returned (mean_returns, cov_matrix) ->
  optimize_portfolio minimize tickers mean_returns cov_matrix
  = Returned optimal ->
  length (x optimal) = length tickers ->
  exists rest,
    output (snd (main gen minimize yf_download now w))
    = output w
      ++ print [Str "Optymalne wagi portfela:"]
         :: map weight_line (combine tickers (x optimal))
      ++ rest.
Proof.
  intros Hget Hcalc Hopt Hlen. unfold main; cbv zeta.
  rewrite (pbind_eval _ _ _ _ Hget), (pbind_eval _ _ _ _ Hcalc).
  cbv beta iota.
  rewrite (pbind_eval _ _ _ _ Hopt), pbind_emit.
  unfold enumerate.
  erewrite pbind_returned;
    [| apply (print_weights_run optimal tickers [] (x optimal));
       [reflexivity | exact Hlen] ].
  cbn [rng output].
  match goal with
  | |- exists rest, output (snd (?tail ?w1)) = _ =>
      assert (Htail : appends tail)
  end.
  { appends_all. }
  match goal with
  | |- exists rest, output (snd (?tail ?w1)) = _ =>
      destruct (Htail w1) as [rest Hrest]
  end.
  exists rest. rewrite Hrest. cbn [output].
  now rewrite <- !app_assoc.
Qed.

End Pipeline.

(** ** The call into the solver *)

Lemma py_truediv_of_nat (a : float64) (n : nat) :
  (0 < n)%nat -> py_truediv a (of_nat n) = Returned (fdiv a (of_nat n)).
Proof.
  intros H. unfold py_truediv, of_nat.
  destruct (Req_dec_T (INR n) 0) as [Hz | _]; [| reflexivity].
  now apply INR_nonzero in Hz.
Qed.

Lemma optimize_portfolio_no_assets
  (minimize : (list float64 -> outcome float64) -> list float64 -> string ->
              list (float64 * float64) -> constraint -> outcome OptimizeResult)
  (mean_returns : list float64) (cov_matrix : list (list float64)) :
  optimize_portfolio minimize [] mean_returns cov_matrix
  = Raised "ZeroDivisionError".
Proof.
  unfold optimize_portfolio, py_truediv, of_nat. simpl.
  destruct (Req_dec_T 0 0) as [_ | H]; [reflexivity | now elim H].
Qed.

Lemma optimize_portfolio_calls
  (minimize : (list float64 -> outcome float64) -> list float64 -> string ->
              list (float64 * float64) -> constraint -> outcome OptimizeResult)
  (names : list string)
  (mean_returns : list float64) (cov_matrix : list (list float64)) :
  (0 < length names)%nat ->
  let n := length names in
  optimize_portfolio minimize names mean_returns cov_matrix
  = (optimal <- minimize
       (fun x => neg_sharpe_ratio x mean_returns cov_matrix
                                  (Some (Fin (4 / 100))))
       (repeat (Fin (1 / INR n)) n) "SLSQP" (repeat (Fin 0, Fin 1) n)
       {| type := "eq"; constraint_fun := fun x => fsub (np_sum x) (Fin 1) |} ;;
     Returned optimal).
Proof.
  intros H n. unfold optimize_portfolio. fold n.
  rewrite py_truediv_of_nat by assumption. cbn [bind].
  unfold of_nat. rewrite fdiv_fin by now apply INR_nonzero.
  reflexivity.
Qed.

Lemma Rsum_repeat (c : R) (n : nat) : Rsum (repeat c n) = INR n * c.
Proof.
  induction n as [| n IH]; [simpl; ring |].
  cbn [repeat]. unfold Rsum. cbn [fold_right]. fold (Rsum (repeat c n)).
  rewrite IH, S_INR. ring.
Qed.

(** The starting point handed to the solver satisfies the equality
    constraint and the bounds. *)
Lemma initial_weights_feasible (n : nat) :
  (0 < n)%nat ->
  let initial_weights := repeat (1 / INR n) n in
  fsub (np_sum (lift initial_weights)) (Fin 1) = Fin 0
  /\ Forall (fun v => 0 <= v <= 1) initial_weights.
Proof.
  intros Hn initial_weights.
  assert (Hpos : 0 < INR n) by (apply lt_0_INR; lia).
  split.
  - rewrite np_sum_lift. unfold initial_weights. rewrite Rsum_repeat.
    simpl. f_equal. field. lra.
  - apply Forall_forall. intros v Hv. apply repeat_spec in Hv. subst v.
    assert (1 <= INR n) by (apply (le_INR 1); lia).
    split.
    + apply Rlt_le, Rdiv_lt_0_compat; lra.
    + apply (Rmult_le_reg_r (INR n)); [assumption |].
      replace (1 / INR n * INR n) with 1 by (field; lra). lra.
Qed.

Lemma length_tickers : length tickers = 26%nat.
Proof. vm_compute. reflexivity. Qed.

Lemma first_ticker : exists others, tickers = "AAVE-USD" :: others.
Proof. eexists. vm_compute. reflexivity. Qed.

Lemma length_draws {rng_state : Type}
  (gen : list float64 -> rng_state -> list float64 * rng_state)
  (alpha : list float64) (k : nat) (s : rng_state) :
  length (fst (draws gen alpha k s)) = k.
Proof.
  revert s. induction k as [| k IH]; intros s; [reflexivity |].
  cbn [draws]. destruct (gen alpha s) as [sample s'].
  specialize (IH s'). destruct (draws gen alpha k s'). simpl in *. lia.
Qed.

Lemma num_portfolios_positive : exists k, num_portfolios = S k.
Proof. exists (pred num_portfolios). vm_compute. reflexivity. Qed.

Lemma draws_vertex_head (alpha : list float64) (k s : nat) :
  exists later s',
    draws vertex_gen alpha (S k) s = (vertex (length alpha) s :: later, s').
Proof.
  cbn [draws]. unfold vertex_gen at 1.
  destruct (draws vertex_gen alpha k (S s)) as [later s']. eauto.
Qed.

Lemma vertex_gen_dimension : dimension_preserving vertex_gen.
Proof.
  intros alpha s. unfold vertex_gen, vertex. simpl.
  now rewrite length_map, length_seq.
Qed.

(** ** The objective functions on any shapes *)

Lemma bind_returned_id {A : Type} (m : outcome A) :
  (a <- m ;; Returned a) = m.
Proof. now destruct m. Qed.

Lemma mapM_np_dot_cases (m : list (list float64)) (v : list float64) :
  (Forall (fun row => length row = length v) m
   /\ mapM (fun row => np_dot row v) m
      = Returned (map (fun row => inner row v) m))
  \/ (~ Forall (fun row => length row = length v) m
      /\ mapM (fun row => np_dot row v) m = Raised "ValueError").
Proof.
  induction m as [| row m IH].
  - left. split; [constructor | reflexivity].
  - cbn [mapM]. destruct (Nat.eq_dec (length row) (length v)) as [Hrow | Hrow].
    + rewrite np_dot_same by assumption. cbn [bind].
      destruct IH as [[Hall Hm] | [Hnot Hm]]; rewrite Hm.
      * left. split; [now constructor | reflexivity].
      * right. split; [| reflexivity]. intros H. apply Hnot.
        now inversion H.
    + rewrite np_dot_mismatch by assumption.
      right. split; [| reflexivity]. intros H. apply Hrow. now inversion H.
Qed.

(** The quadratic form returns exactly when the shapes agree. *)
Lemma quadratic_form_cases (weights : list float64)
  (cov_matrix : list (list float64)) :
  (conformable weights cov_matrix
   /\ (cw <- np_dot_2d cov_matrix weights ;; np_dot (T weights) cw)
      = Returned (inner weights
                        (map (fun row => inner row weights) cov_matrix)))
  \/ (~ conformable weights cov_matrix
      /\ (cw <- np_dot_2d cov_matrix weights ;; np_dot (T weights) cw)
         = Raised "ValueError").
Proof.
  unfold conformable, T. destruct cov_matrix as [| row m].
  - cbn [np_dot_2d length]. destruct (Nat.eqb_spec (length weights) 0) as [H0 | H0].
    + left. split; [split; [now rewrite H0 | constructor] |].
      cbn [bind map]. apply np_dot_same. now rewrite H0.
    + right. split; [| reflexivity]. intros [H _]. now apply H0.
  - change (np_dot_2d (row :: m) weights)
      with (mapM (fun r => np_dot r weights) (row :: m)).
    destruct (mapM_np_dot_cases (row :: m) weights) as [[Hall Hm] | [Hnot Hm]];
      rewrite Hm; cbn [bind].
    + destruct (Nat.eq_dec (length (row :: m)) (length weights)) as [Hl | Hl].
      * left. split; [now split |]. apply np_dot_same.
        now rewrite length_map.
      * right. split; [now intros [H _] |]. apply np_dot_mismatch.
        rewrite length_map. congruence.
    + right. split; [now intros [_ H] | reflexivity].
Qed.

Lemma portfolio_volatility_returns
  (weights mean_returns : list float64) (cov_matrix : list (list float64)) :
  conformable weights cov_matrix ->
  portfolio_volatility weights mean_returns cov_matrix
  = Returned (np_sqrt (inner weights
                             (map (fun row => inner row weights) cov_matrix))).
Proof.
  intros Hc. unfold portfolio_volatility.
  destruct (quadratic_form_cases weights cov_matrix) as [[_ Hq] | [Hn _]];
    [| contradiction].
  destruct (np_dot_2d cov_matrix weights); cbn [bind] in *;
    [now rewrite Hq | discriminate].
Qed.

Lemma neg_sharpe_ratio_returns
  (weights mean_returns : list float64) (cov_matrix : list (list float64))
  (risk_free_rate : option float64) :
  length weights = length mean_returns ->
  conformable weights cov_matrix ->
  neg_sharpe_ratio weights mean_returns cov_matrix risk_free_rate
  = Returned (fdiv (fneg (fsub (inner weights mean_returns)
                               (keyword (Fin (4 / 100)) risk_free_rate)))
                   (np_sqrt (inner weights
                                   (map (fun row => inner row weights)
                                        cov_matrix)))).
Proof.
  intros Hlen Hc. unfold neg_sharpe_ratio.
  rewrite np_dot_same by assumption. cbn [bind].
  destruct (quadratic_form_cases weights cov_matrix) as [[_ Hq] | [Hn _]];
    [| contradiction].
  destruct (np_dot_2d cov_matrix weights); cbn [bind] in *;
    [now rewrite Hq | discriminate].
Qed.

(** ** The pandas pipeline on tables with zero prices *)

Lemma shifted_returns_spec (later : pd.Series) (first : float64) :
  zip_with (fun prev cur => fsub (fdiv cur prev) (Fin 1))
           (first :: later) later
  = spec_simple_returns (first :: later).
Proof.
  revert first. induction later as [| cur later IH]; intros first;
    [reflexivity |].
  change (zip_with (fun prev cur => fsub (fdiv cur prev) (Fin 1))
                   (first :: cur :: later) (cur :: later))
    with (fsub (fdiv cur first) (Fin 1)
          :: zip_with (fun prev cur => fsub (fdiv cur prev) (Fin 1))
                      (cur :: later) later).
  rewrite IH. reflexivity.
Qed.

Lemma pct_change_column_spec (data : pd.Series) :
  pd.pct_change_column data
  = match data with
    | [] => []
    | _ :: _ => NaN :: spec_simple_returns data
    end.
Proof.
  destruct data as [| first later]; [reflexivity |].
  unfold pd.pct_change_column. now rewrite shifted_returns_spec.
Qed.

Lemma length_spec_simple_returns (p : list float64) :
  length (spec_simple_returns p) = (length p - 1)%nat.
Proof.
  induction p as [| first [| cur later] IH]; try reflexivity.
  change (spec_simple_returns (first :: cur :: later))
    with (fsub (fdiv cur first) (Fin 1) :: spec_simple_returns (cur :: later)).
  simpl length in *. rewrite IH. lia.
Qed.

Lemma Rsgn_nonzero (x : R) : x <> 0 -> Rsgn x <> Eq.
Proof.
  intros H. unfold Rsgn.
  destruct (total_order_T x 0) as [[Hlt | Heq] | Hgt];
    [discriminate | contradiction | discriminate].
Qed.

(** A return is NaN only as [0 / 0]. *)
Lemma return_not_nan (prev cur : R) :
  prev <> 0 \/ cur <> 0 ->
  isnan (fsub (fdiv (Fin cur) (Fin prev)) (Fin 1)) = false.
Proof.
  intros H. cbn [fdiv]. destruct (Req_dec_T prev 0) as [Hz | Hnz];
    [| reflexivity].
  destruct H as [H | H]; [contradiction |].
  pose proof (Rsgn_nonzero cur H) as Hs.
  destruct (Rsgn cur); [contradiction | reflexivity | reflexivity].
Qed.

Lemma spec_simple_returns_not_nan (column : list R) :
  no_successive_zeros column ->
  Forall (fun v => isnan v = false) (spec_simple_returns (lift column)).
Proof.
  induction column as [| prev [| cur later] IH]; intros H;
    try (now constructor).
  destruct H as [Hpair Hrest].
  change (spec_simple_returns (lift (prev :: cur :: later)))
    with (fsub (fdiv (Fin cur) (Fin prev)) (Fin 1)
          :: spec_simple_returns (lift (cur :: later))).
  constructor; [now apply return_not_nan | now apply IH].
Qed.

Lemma map_isnan_none (r : list float64) :
  Forall (fun v => isnan v = false) r ->
  map isnan r = repeat false (length r).
Proof.
  induction 1 as [| v r Hv _ IH]; [reflexivity |].
  cbn [map length repeat]. now rewrite Hv, IH.
Qed.

Lemma filter_notna_none (r : list float64) :
  Forall (fun v => isnan v = false) r -> filter notna r = r.
Proof.
  induction 1 as [| v r Hv _ IH]; [reflexivity |].
  cbn [filter]. unfold notna at 1. now rewrite Hv, IH.
Qed.

Lemma filter_both_none (a b : list float64) :
  Forall (fun v => isnan v = false) a ->
  Forall (fun v => isnan v = false) b ->
  filter (fun p => notna (fst p) && notna (snd p)) (combine a b)
  = combine a b.
Proof.
  intros Ha. revert b. induction Ha as [| x a Hx _ IH]; intros b Hb;
    [reflexivity |].
  destruct Hb as [| y b Hy Hb]; [reflexivity |].
  cbn [combine filter fst snd]. unfold notna at 1 2.
  now rewrite Hx, Hy, IH.
Qed.

Lemma nan_rows_head (m : nat) (returns : list (list float64)) (b : bool) :
  Forall (fun r => length r = m /\ Forall (fun v => isnan v = false) r)
         returns ->
  fold_right (fun column acc => zip_with orb (map isnan column) acc)
             (b :: repeat false m)
             (map (fun r => NaN :: r) returns)
  = (match returns with [] => b | _ => true end) :: repeat false m.
Proof.
  induction 1 as [| r returns [Hr Hnan] _ IH]; [reflexivity |].
  cbn [map fold_right]. rewrite IH.
  change (map isnan (NaN :: r)) with (true :: map isnan r).
  rewrite map_isnan_none, Hr by assumption. apply zip_orb_first_row.
Qed.

Lemma aligned_returns (periods : nat) (prices : list (list R)) :
  aligned_prices periods prices ->
  Forall (fun r => length r = (periods - 1)%nat
                   /\ Forall (fun v => isnan v = false) r)
         (map spec_simple_returns (lift2 prices)).
Proof.
  intros Hp. unfold lift2. rewrite map_map. apply Forall_map.
  eapply Forall_impl; [| exact Hp]. intros c [Hc Hz]. cbv beta. split.
  - now rewrite length_spec_simple_returns, length_lift, Hc.
  - now apply spec_simple_returns_not_nan.
Qed.

(** The rows that [dropna] removes after [pct_change] are exactly the first
    one: what is left are the simple returns from the second period on. *)
Lemma dropna_pct_change_aligned (periods : nat) (prices : list (list R)) :
  aligned_prices periods prices ->
  pd.dropna (pd.pct_change (lift2 prices))
  = map spec_simple_returns (lift2 prices).
Proof.
  intros Hp. pose proof (aligned_returns periods prices Hp) as Hret.
  destruct periods as [| m].
  - assert (Hall : pd.pct_change (lift2 prices) = map (fun _ => []) prices).
    { unfold pd.pct_change, lift2. rewrite map_map. apply map_ext_Forall.
      eapply Forall_impl; [| exact Hp]. intros c [Hlen _].
      destruct c; [reflexivity | discriminate]. }
    rewrite Hall. unfold pd.dropna, lift2. rewrite !map_map.
    apply map_ext_Forall. eapply Forall_impl; [| exact Hp].
    intros c [Hlen _]. destruct c; [| discriminate].
    simpl. now destruct (pd.nan_rows _).
  - assert (Hall : pd.pct_change (lift2 prices)
                   = map (fun r => NaN :: r)
                         (map spec_simple_returns (lift2 prices))).
    { unfold pd.pct_change, lift2. rewrite !map_map. apply map_ext_Forall.
      eapply Forall_impl; [| exact Hp]. intros c [Hlen _].
      rewrite pct_change_column_spec.
      destruct c; [discriminate | reflexivity]. }
    simpl in Hret. rewrite Nat.sub_0_r in Hret.
    rewrite Hall. unfold pd.dropna, pd.nan_rows.
    set (returns := map spec_simple_returns (lift2 prices)) in *.
    assert (Hrows : pd.nrows (map (fun r => NaN :: r) returns)
                    = match returns with [] => 0%nat | _ => S m end).
    { destruct returns as [| r returns']; [reflexivity |].
      apply Forall_inv in Hret. simpl. now rewrite (proj1 Hret). }
    rewrite Hrows. destruct returns as [| r returns'] eqn:Hreturns;
      [reflexivity |].
    change (repeat false (S m)) with (false :: repeat false m).
    rewrite nan_rows_head by assumption.
    rewrite map_map. rewrite <- (map_id (r :: returns')) at 2.
    apply map_ext_Forall.
    eapply Forall_impl; [| exact Hret]. intros r0 [Hr0 _].
    cbn [pd.drop_rows]. rewrite <- Hr0. apply drop_rows_none.
Qed.

Lemma mean_column_none (r : list float64) :
  Forall (fun v => isnan v = false) r ->
  pd.mean_column r = spec_sample_mean r.
Proof.
  intros H. unfold pd.mean_column. now rewrite filter_notna_none.
Qed.

Lemma cov_pair_none (a b : list float64) :
  length a = length b ->
  Forall (fun v => isnan v = false) a ->
  Forall (fun v => isnan v = false) b ->
  pd.cov_pair a b = spec_sample_cov a b.
Proof.
  intros Hl Ha Hb. unfold pd.cov_pair, spec_sample_cov, spec_sample_mean.
  rewrite filter_both_none by assumption.
  rewrite (map_fst_combine_same _ _ Hl), (map_snd_combine_same _ _ Hl).
  rewrite length_combine, <- Hl, Nat.min_id. reflexivity.
Qed.

Lemma calculate_returns_aligned (periods : nat) (prices : list (list R)) :
  aligned_prices periods prices ->
  calculate_returns (lift2 prices)
  = Returned (spec_calculate_returns (lift2 prices)).
Proof.
  intros Hp. pose proof (aligned_returns periods prices Hp) as Hret.
  unfold calculate_returns, spec_calculate_returns, spec_annualization.
  rewrite (dropna_pct_change_aligned periods) by assumption.
  set (returns := map spec_simple_returns (lift2 prices)) in *.
  f_equal. f_equal.
  - unfold pd.scale, pd.mean. rewrite map_map. apply map_ext_Forall.
    eapply Forall_impl; [| exact Hret]. intros r [_ Hr]. cbv beta.
    now rewrite mean_column_none.
  - unfold pd.scale_frame, pd.scale, pd.cov. rewrite map_map.
    apply map_ext_Forall. eapply Forall_impl; [| exact Hret].
    intros a [Hla Ha]. cbv beta. rewrite map_map. apply map_ext_Forall.
    eapply Forall_impl; [| exact Hret]. intros b [Hlb Hb]. cbv beta.
    rewrite cov_pair_none by (assumption || congruence). reflexivity.
Qed.

Lemma price_table_no_zeros (column : list R) :
  Forall (fun p => p <> 0) column -> no_successive_zeros column.
Proof.
  induction column as [| prev [| cur later] IH]; intros H; try exact I.
  inversion H as [| ? ? Hprev Hrest]; subst.
  split; [now left | now apply IH].
Qed.

Lemma price_table_aligned (periods : nat) (prices : list (list R)) :
  price_table periods prices -> aligned_prices periods prices.
Proof.
  intros Hp. eapply Forall_impl; [| exact Hp]. intros c [Hlen Hnz].
  split; [exact Hlen | now apply price_table_no_zeros].
Qed.

(** ** Equal columns, and the way to the solver *)


Lemma optimize_portfolio_call
  (minimize : (list float64 -> outcome float64) -> list float64 -> string ->
              list (float64 * float64) -> constraint -> outcome OptimizeResult)
  (names : list string)
  (mean_returns : list float64) (cov_matrix : list (list float64)) :
  (0 < length names)%nat ->
  let n := length names in
  optimize_portfolio minimize names mean_returns cov_matrix
  = minimize
      (fun x => neg_sharpe_ratio x mean_returns cov_matrix
                                 (Some (Fin (4 / 100))))
      (lift (repeat (1 / INR n) n)) "SLSQP" (repeat (Fin 0, Fin 1) n)
      {| type := "eq"; constraint_fun := fun x => fsub (np_sum x) (Fin 1) |}.
Proof.
  intros H n. rewrite optimize_portfolio_calls by assumption.
  rewrite bind_returned_id. unfold lift. now rewrite map_repeat.
Qed.

(** The run of the pipeline on the download of three equal prices per
    ticker, up to the solver's answer. *)
Lemma flat_run :
  let price_data := map (fun _ : string => [Fin 1; Fin 1; Fin 1]) tickers in
  let returns := pd.dropna (pd.pct_change price_data) in
  let mean_returns := pd.scale (pd.mean returns) 365 in
  let cov_matrix := pd.scale_frame (pd.cov returns) 365 in
  let optimal :=
    {| x := repeat (Fin (1 / INR (length tickers))) (length tickers);
       success := false; fun_ := NaN |} in
  get_price_data flat_download tickers "2024-11-12" "2025-01-01"
  = Returned price_data
  /\ calculate_returns price_data = Returned (mean_returns, cov_matrix)
  /\ optimize_portfolio stalled_minimize tickers mean_returns cov_matrix
     = Returned optimal
  /\ length (x optimal) = length tickers.
Proof.
  cbv zeta. split; [reflexivity |]. split; [reflexivity |]. split.
  - rewrite optimize_portfolio_calls by (rewrite length_tickers; lia).
    reflexivity.
  - apply repeat_length.
Qed.

(** Unfolds the sums over concrete real vectors. *)
Ltac real_sums :=
  cbv [quadratic_form dotR matvecR Rsum map zip_with fold_right].

(** * The claims *)

(** ** Objective functions *)

(** C10.  [portfolio_volatility] depends only on the weights and the
    covariance matrix: whatever mean-return vectors it is handed, the result
    is the same, since the parameter [mean_returns] is never used. *)
Theorem portfolio_volatility_ignores_mean_returns
  (weights mu1 mu2 : list float64) (cov_matrix : list (list float64)) :
  portfolio_volatility weights mu1 cov_matrix
  = portfolio_volatility weights mu2 cov_matrix.
Proof. reflexivity. Qed.







(** ** Returns engine *)

(** C2, as the code has it.  On every aligned price table in which no
    asset has two successive prices equal to zero, [calculate_returns]
    returns what the specification describes: the row that [dropna] removes
    is the first period and nothing else, which leaves the simple returns
    [p[t] / p[t-1] - 1] of each asset from the second period on; the result
    is their column-wise sample mean and sample covariance, both scaled by
    the one constant 365.  With no zero price at all and three or more
    periods these are the real-valued sample statistics. *)
Theorem calculate_returns_algorithm (periods : nat) (prices : list (list R)) :
  aligned_prices periods prices ->
  pd.dropna (pd.pct_change (lift2 prices))
  = map spec_simple_returns (lift2 prices)
  /\ calculate_returns (lift2 prices)
     = Returned (spec_calculate_returns (lift2 prices))
  /\ spec_annualization = 365
  /\ (price_table periods prices ->
      (3 <= periods)%nat ->
      let returns := map simple_returnsR prices in
      pd.dropna (pd.pct_change (lift2 prices)) = lift2 returns
      /\ calculate_returns (lift2 prices)
         = Returned
             (lift (map (fun r => sample_meanR r * 365) returns),
              lift2 (map (fun a =>
                            map (fun b => sample_covR a b * 365) returns)
                         returns))).
Proof.
  intros Hp. split; [| split; [| split; [reflexivity |]]].
  - now apply (dropna_pct_change_aligned periods).
  - now apply (calculate_returns_aligned periods).
  - intros Ht H3. split.
    + now apply (dropna_pct_change periods).
    + now apply (calculate_returns_real periods).
Qed.

Lemma calculate_returns_algorithm_witness :
  let prices := [[1; 2; 4]; [5; 0; 10]] in
  let steady := [[1; 2; 4]; [5; 5; 10]] in
  let returns := map simple_returnsR steady in
  pd.dropna (pd.pct_change (lift2 prices))
  = map spec_simple_returns (lift2 prices)
  /\ calculate_returns (lift2 prices)
     = Returned (spec_calculate_returns (lift2 prices))
  /\ calculate_returns (lift2 steady)
     = Returned
         (lift (map (fun r => sample_meanR r * 365) returns),
          lift2 (map (fun a => map (fun b => sample_covR a b * 365) returns)
                     returns)).
Proof.
  intros prices steady returns.
  assert (Hp : aligned_prices 3 prices).
  { constructor; [| constructor; [| constructor]];
      (split; [reflexivity | cbn [no_successive_zeros]]).
    - repeat split; left; lra.
    - repeat split; [left; lra | right; lra]. }
  assert (Ht : price_table 3 steady) by (repeat constructor; lra).
  destruct (calculate_returns_algorithm 3 prices Hp) as (Hrows & Hspec & _).
  destruct (calculate_returns_algorithm 3 steady (price_table_aligned 3 _ Ht))
    as (_ & _ & _ & Hreal).
  split; [exact Hrows |]. split; [exact Hspec |].
  exact (proj2 (Hreal Ht (le_n 3))).
Defined.

(** C2 fails as stated: in the aligned table with prices 0, 0, 1 for one
    asset and 1, 2, 3 for the other, the first asset's return over the
    second period is [0 / 0], which is NaN, so [dropna] removes the second
    period as well as the first.  The code's mean return of the second asset
    is [(3/2 - 1) * 365 = 182.5], where the mean of its simple returns
    from the second period on gives [((2 - 1) + (3/2 - 1)) / 2 * 365
    = 273.75]. *)
Lemma calculate_returns_successive_zero_prices :
  let prices := lift2 [[0; 0; 1]; [1; 2; 3]] in
  Forall (fun column => length column = 3%nat) prices
  /\ pd.dropna (pd.pct_change prices) = [[PInf]; [Fin (1 / 2)]]
  /\ (exists cov_matrix,
         calculate_returns prices = Returned ([PInf; Fin (365 / 2)], cov_matrix))
  /\ fst (spec_calculate_returns prices) = [NaN; Fin (1095 / 4)]
  /\ calculate_returns prices <> Returned (spec_calculate_returns prices).
Proof.
  intros prices.
  assert (H0 : pd.pct_change_column (lift [0; 0; 1]) = [NaN; NaN; PInf]).
  { unfold pd.pct_change_column. cbn [lift map zip_with].
    rewrite fdiv_zero_zero, fdiv_by_zero, Rsgn_pos by lra. reflexivity. }
  assert (H1 : pd.pct_change_column (lift [1; 2; 3])
               = [NaN; Fin (2 / 1 - 1); Fin (3 / 2 - 1)]).
  { unfold pd.pct_change_column. cbn [lift map zip_with].
    rewrite !fdiv_fin by lra. reflexivity. }
  assert (Hrows : pd.dropna (pd.pct_change prices) = [[PInf]; [Fin (1 / 2)]]).
  { unfold prices, pd.pct_change. cbn [lift2 map]. rewrite H0, H1.
    unfold pd.dropna, pd.nan_rows.
    cbn [pd.nrows length repeat fold_right map isnan zip_with orb pd.drop_rows].
    replace (3 / 2 - 1) with (1 / 2) by lra. reflexivity. }
  assert (Hinf : fmul (fdiv PInf (of_nat 1)) (Fin 365) = PInf).
  { unfold fdiv, of_nat. cbn [INR sgn].
    destruct (Req_dec_T 1 0) as [H | _]; [exfalso; lra |].
    rewrite Rsgn_pos by lra. cbn [sgn_mul inf_of_sign].
    unfold fmul. cbn [sgn]. rewrite Rsgn_pos by lra. reflexivity. }
  assert (Hcode : exists cov_matrix,
             calculate_returns prices = Returned ([PInf; Fin (365 / 2)], cov_matrix)).
  { unfold calculate_returns. rewrite Hrows.
    eexists. f_equal. f_equal.
    unfold pd.scale, pd.mean, pd.mean_column.
    cbn [map filter notna isnan negb length np_sum fold_left fadd].
    rewrite Hinf. f_equal.
    unfold of_nat. cbn [INR]. rewrite fdiv_fin by lra.
    cbn [fmul]. do 2 f_equal. lra. }
  assert (Hspec : fst (spec_calculate_returns prices) = [NaN; Fin (1095 / 4)]).
  { unfold spec_calculate_returns, prices.
    cbn [lift2 lift map fst spec_simple_returns].
    rewrite fdiv_zero_zero, fdiv_by_zero, Rsgn_pos by lra.
    rewrite !fdiv_fin by lra.
    unfold spec_sample_mean, spec_annualization.
    cbn [length np_sum fold_left fadd fsub fneg of_nat INR inf_of_sign fdiv fmul].
    f_equal.
    destruct (Req_dec_T (1 + 1) 0) as [H | _]; [exfalso; lra |].
    cbn [fmul]. do 2 f_equal. lra. }
  split; [repeat constructor |].
  split; [exact Hrows |].
  split; [exact Hcode |].
  split; [exact Hspec |].
  destruct Hcode as (cov_matrix & Hcode).
  rewrite Hcode. intros Heq.
  pose proof (eq_trans
                (f_equal (fun o => match o with
                                   | Returned r => fst r
                                   | Raised _ => []
                                   end) Heq)
                Hspec) as Hfst.
  discriminate Hfst.
Qed.

(** C6, as the code has it.  [calculate_returns] checks nothing: for a price
    table with fewer than two observations per asset it raises no error and
    returns a mean vector and a covariance matrix that are NaN throughout. *)
Theorem calculate_returns_insufficient_data
  (periods : nat) (price_data : pd.DataFrame) :
  Forall (fun column => length column = periods) price_data ->
  (periods < 2)%nat ->
  calculate_returns price_data
  = Returned (repeat NaN (length price_data),
              repeat (repeat NaN (length price_data)) (length price_data)).
Proof. apply calculate_returns_short. Qed.

Lemma calculate_returns_insufficient_data_witness :
  calculate_returns [[Fin 100]; [Fin 200]]
  = Returned ([NaN; NaN], [[NaN; NaN]; [NaN; NaN]]).
Proof.
  apply (calculate_returns_insufficient_data 1 [[Fin 100]; [Fin 200]]).
  - repeat constructor.
  - lia.
Defined.

(** C6 fails as stated: one price observation per asset yields NaN results,
    not InsufficientDataError. *)
Lemma calculate_returns_single_observation :
  calculate_returns [[Fin 100]; [Fin 200]]
  = Returned ([NaN; NaN], [[NaN; NaN]; [NaN; NaN]])
  /\ calculate_returns [[Fin 100]; [Fin 200]]
     <> Raised "InsufficientDataError".
Proof.
  assert (H : calculate_returns [[Fin 100]; [Fin 200]]
              = Returned ([NaN; NaN], [[NaN; NaN]; [NaN; NaN]])).
  { apply (calculate_returns_short 1); [repeat constructor | lia]. }
  split; [exact H | rewrite H; discriminate].
Qed.




(** ** Frontier sampler *)

Lemma frontier_results_run {rng_state : Type}
  (gen : list float64 -> rng_state -> list float64 * rng_state)
  (mean_returns : list float64) (cov_matrix : list (list float64))
  (w : world rng_state) :
  shaped (length mean_returns) mean_returns cov_matrix ->
  dimension_preserving gen ->
  let drawn :=
    draws gen (np_ones (length mean_returns)) num_portfolios (rng w) in
  let points := map (frontier_point mean_returns cov_matrix) (fst drawn) in
  frontier_results gen mean_returns cov_matrix w
  = (Returned [map expectedReturn points; map volatility points;
               map sharpeRatio points],
     {| rng := snd drawn; output := output w |}).
Proof.
  intros Hshape Hdim. unfold frontier_results. cbv zeta.
  now apply frontier_loop_from_zeros.
Qed.

Lemma plot_efficient_frontier_run {rng_state : Type}
  (gen : list float64 -> rng_state -> list float64 * rng_state)
  (mean_returns : list float64) (cov_matrix : list (list float64))
  (optimal_weights : list float64) (w : world rng_state) :
  shaped (length mean_returns) mean_returns cov_matrix ->
  dimension_preserving gen ->
  length optimal_weights = length mean_returns ->
  let drawn :=
    draws gen (np_ones (length mean_returns)) num_portfolios (rng w) in
  let points := map (frontier_point mean_returns cov_matrix) (fst drawn) in
  plot_efficient_frontier gen mean_returns cov_matrix optimal_weights w
  = (Returned tt,
     {| rng := snd drawn;
        output := output w
                  ++ frontier_plot points
                       (frontier_point mean_returns cov_matrix
                                       optimal_weights) |}).
Proof.
  intros Hshape Hdim Hlen drawn points. unfold plot_efficient_frontier.
  rewrite (pbind_returned _ _ _ _ _
             (frontier_results_run gen mean_returns cov_matrix w Hshape Hdim)).
  fold drawn. fold points.
  pose proof Hshape as (Hm & Hc & Hrows).
  rewrite (pbind_eval _ _ _ (inner optimal_weights mean_returns))
    by now apply np_dot_same.
  rewrite (pbind_eval _ _ _
             (map (fun row => inner row optimal_weights) cov_matrix)).
  2:{ apply np_dot_2d_shaped; [congruence |].
      eapply Forall_impl; [| exact Hrows]. intros row Hr. simpl in *.
      congruence. }
  rewrite (pbind_eval _ _ _
             (inner optimal_weights
                    (map (fun row => inner row optimal_weights) cov_matrix))).
  2:{ apply np_dot_same. unfold T. rewrite length_map. congruence. }
  cbv zeta. rewrite !pbind_emit. unfold emit. cbn [rng output row_of nth].
  unfold frontier_plot, frontier_point. cbn [expectedReturn volatility].
  now rewrite <- !app_assoc.
Qed.

(** C9, as the code has it.  [plot_efficient_frontier] receives the mean
    returns, the covariance matrix and the optimal weights, and neither a
    sample count nor a seed: the count is the constant 10,000 and the
    weights are drawn from NumPy's global generator.  The points it stores
    and plots are those of the next 10,000 draws from the generator's state
    at the call, and the call leaves the generator 10,000 draws further. *)
#[warning="-abstract-large-number"]
Theorem frontier_sampling_uses_global_generator {rng_state : Type}
  (gen : list float64 -> rng_state -> list float64 * rng_state)
  (mean_returns : list float64) (cov_matrix : list (list float64))
  (optimal_weights : list float64) (w : world rng_state) :
  shaped (length mean_returns) mean_returns cov_matrix ->
  dimension_preserving gen ->
  length optimal_weights = length mean_returns ->
  let drawn :=
    draws gen (np_ones (length mean_returns)) num_portfolios (rng w) in
  let points := map (frontier_point mean_returns cov_matrix) (fst drawn) in
  num_portfolios = 10000%nat
  /\ length points = num_portfolios
  /\ frontier_results gen mean_returns cov_matrix w
     = (Returned [map expectedReturn points; map volatility points;
                  map sharpeRatio points],
        {| rng := snd drawn; output := output w |})
  /\ plot_efficient_frontier gen mean_returns cov_matrix optimal_weights w
     = (Returned tt,
        {| rng := snd drawn;
           output := output w
                     ++ frontier_plot points
                          (frontier_point mean_returns cov_matrix
                                          optimal_weights) |}).
Proof.
  intros Hshape Hdim Hlen drawn points.
  split; [reflexivity | split; [| split]].
  - unfold points, drawn. now rewrite length_map, length_draws.
  - now apply frontier_results_run.
  - now apply plot_efficient_frontier_run.
Qed.

Lemma identity_shaped :
  shaped (length [Fin 1; Fin 2]) [Fin 1; Fin 2]
         [[Fin 1; Fin 0]; [Fin 0; Fin 1]].
Proof. repeat split; repeat constructor. Qed.

Lemma frontier_sampling_uses_global_generator_witness :
  let drawn := draws vertex_gen (np_ones 2) num_portfolios 0%nat in
  let points :=
    map (frontier_point [Fin 1; Fin 2] [[Fin 1; Fin 0]; [Fin 0; Fin 1]])
        (fst drawn) in
  length points = num_portfolios
  /\ plot_efficient_frontier vertex_gen [Fin 1; Fin 2]
       [[Fin 1; Fin 0]; [Fin 0; Fin 1]] [Fin 1; Fin 0]
       {| rng := 0%nat; output := [] |}
     = (Returned tt,
        {| rng := snd drawn;
           output :=
             frontier_plot points
               (frontier_point [Fin 1; Fin 2] [[Fin 1; Fin 0]; [Fin 0; Fin 1]]
                               [Fin 1; Fin 0]) |}).
Proof.
  pose proof (frontier_sampling_uses_global_generator vertex_gen
                [Fin 1; Fin 2] [[Fin 1; Fin 0]; [Fin 0; Fin 1]] [Fin 1; Fin 0]
                {| rng := 0%nat; output := [] |}
                identity_shaped vertex_gen_dimension eq_refl) as H.
  exact (conj (proj1 (proj2 H)) (proj2 (proj2 (proj2 H)))).
Defined.

(** C9 fails as stated: called twice with the same mean returns, covariance
    matrix and optimal weights, [plot_efficient_frontier] plots different
    points when the global generator is in a different state. *)
Lemma frontier_depends_on_generator_state :
  output (snd (plot_efficient_frontier vertex_gen [Fin 1; Fin 2]
                 [[Fin 1; Fin 0]; [Fin 0; Fin 1]] [Fin 1; Fin 0]
                 {| rng := 0%nat; output := [] |}))
  <> output (snd (plot_efficient_frontier vertex_gen [Fin 1; Fin 2]
                    [[Fin 1; Fin 0]; [Fin 0; Fin 1]] [Fin 1; Fin 0]
                    {| rng := 1%nat; output := [] |})).
Proof.
  rewrite (plot_efficient_frontier_run vertex_gen _ _ [Fin 1; Fin 0]
             {| rng := 0%nat; output := [] |}
             identity_shaped vertex_gen_dimension eq_refl).
  rewrite (plot_efficient_frontier_run vertex_gen _ _ [Fin 1; Fin 0]
             {| rng := 1%nat; output := [] |}
             identity_shaped vertex_gen_dimension eq_refl).
  destruct num_portfolios_positive as [k Hk]. rewrite Hk.
  cbn [rng snd output app].
  destruct (draws_vertex_head (np_ones (length [Fin 1; Fin 2])) k 0)
    as (later0 & s0 & H0).
  destruct (draws_vertex_head (np_ones (length [Fin 1; Fin 2])) k 1)
    as (later1 & s1 & H1).
  rewrite H0, H1. cbn [fst map]. unfold frontier_plot. intros H.
  apply (f_equal (fun events =>
                    match events with
                    | _ :: plt_scatter _ returns _ _ :: _ => hd NaN returns
                    | _ => NaN
                    end)) in H.
  cbn [hd] in H. clear - H.
  unfold frontier_point, expectedReturn, inner, np_sum, vertex in H.
  cbn in H. injection H as H. lra.
Qed.

(** C4: what the code stores.  For a single asset with mean return 1 and
    variance 1 every draw is the weight vector [1.0]; the sampler stores the
    Sharpe ratio [1 / 1 = 1] for each of its points, without subtracting a
    risk-free rate, while the optimizer's objective on the same portfolio is
    [-(1 - 0.04) / 1 = -0.96]. *)
Theorem sampler_sharpe_omits_risk_free_rate (w : world nat) :
  (forall s, fst (vertex_gen (np_ones 1) s) = [Fin 1])
  /\ (exists results w',
         frontier_results vertex_gen [Fin 1] [[Fin 1]] w
         = (Returned results, w')
         /\ row_of results 2 = repeat (Fin 1) num_portfolios)
  /\ neg_sharpe_ratio [Fin 1] [Fin 1] [[Fin 1]] None
     = Returned (Fin (- (96 / 100))).
Proof.
  assert (Hv : forall s, vertex (length (np_ones 1)) s = [Fin 1]).
  { intros s. unfold vertex. cbn [np_ones repeat length seq map].
    now rewrite Nat.mod_1_r. }
  split; [exact Hv | split].
  - assert (Hshape : shaped (length [Fin 1]) [Fin 1] [[Fin 1]])
      by (repeat split; repeat constructor).
    rewrite (frontier_results_run vertex_gen _ _ w Hshape vertex_gen_dimension).
    eexists. eexists. split; [reflexivity |]. cbn [row_of nth length].
    generalize (rng w). induction num_portfolios as [| k IH]; intros s;
      [reflexivity |].
    cbn [draws]. unfold vertex_gen at 1.
    specialize (IH (S s)).
    destruct (draws vertex_gen (np_ones 1) k (S s)) as [later s'].
    cbn [fst map repeat] in *. rewrite IH. f_equal.
    rewrite Hv. unfold frontier_point, sharpeRatio, inner, np_sum.
    cbn [zip_with map fold_left fmul fadd].
    rewrite np_sqrt_fin by lra.
    replace (0 + 1 * (0 + 1 * 1)) with 1 by lra. rewrite sqrt_1.
    rewrite fdiv_fin by lra. f_equal. lra.
  - change (neg_sharpe_ratio (lift [1]) (lift [1]) (lift2 [[1]])
                             (Some (Fin (4 / 100)))
            = Returned (Fin (- (96 / 100)))).
    rewrite neg_sharpe_ratio_lift
      by (reflexivity || (split; [reflexivity | repeat constructor])).
    replace (quadratic_form [[1]] [1]) with 1 by (real_sums; lra).
    rewrite np_sqrt_fin, sqrt_1 by lra. rewrite fdiv_fin by lra.
    f_equal. f_equal. real_sums. lra.
Qed.

(** ** The pipeline *)

(** C8, as the code has it.  An exception from the download, the returns
    engine or the optimizer ends [main] with nothing printed and nothing
    drawn.  A solver that returns without converging raises nothing, and
    [main] never reads [success]: the weights report, one line per ticker,
    is printed all the same. *)
Theorem main_on_failed_optimization {rng_state : Type}
  (gen : list float64 -> rng_state -> list float64 * rng_state)
  (minimize : (list float64 -> outcome float64) -> list float64 -> string ->
              list (float64 * float64) -> constraint -> outcome OptimizeResult)
  (yf_download : list string -> string -> string ->
                 outcome (list (string * pd.DataFrame)))
  (now : string) (w : world rng_state) :
  (forall e,
      (get_price_data yf_download tickers "2024-11-12" now = Raised e
       \/ (exists price_data,
             get_price_data yf_download tickers "2024-11-12" now
             = Returned price_data
             /\ (calculate_returns price_data = Raised e
                 \/ exists mean_returns cov_matrix,
                      calculate_returns price_data
                      = Returned (mean_returns, cov_matrix)
                      /\ optimize_portfolio minimize tickers mean_returns
                                            cov_matrix
                         = Raised e))) ->
      main gen minimize yf_download now w = (Raised e, w))
  /\ (forall price_data mean_returns cov_matrix optimal,
         get_price_data yf_download tickers "2024-11-12" now
         = Returned price_data ->
         calculate_returns price_data = Returned (mean_returns, cov_matrix) ->
         optimize_portfolio minimize tickers mean_returns cov_matrix
         = Returned optimal ->
         success optimal = false ->
         length (x optimal) = length tickers ->
         exists rest,
           output (snd (main gen minimize yf_download now w))
           = output w
             ++ print [Str "Optymalne wagi portfela:"]
                :: map weight_line (combine tickers (x optimal))
             ++ rest).
Proof.
  split.
  - intros e. apply main_aborts.
  - intros price_data mean_returns cov_matrix optimal Hget Hcalc Hopt _ Hlen.
    now apply (main_reports gen minimize yf_download now w price_data
                 mean_returns cov_matrix optimal).
Qed.

Lemma main_on_failed_optimization_witness :
  main vertex_gen stalled_minimize empty_download "2025-01-01"
       {| rng := 0%nat; output := [] |}
  = (Raised "KeyError", {| rng := 0%nat; output := [] |})
  /\ exists optimal rest,
       success optimal = false
       /\ output (snd (main vertex_gen stalled_minimize flat_download
                            "2025-01-01" {| rng := 0%nat; output := [] |}))
          = print [Str "Optymalne wagi portfela:"]
            :: map weight_line (combine tickers (x optimal)) ++ rest.
Proof.
  split.
  - apply (proj1 (main_on_failed_optimization vertex_gen stalled_minimize
                    empty_download "2025-01-01"
                    {| rng := 0%nat; output := [] |})).
    left. reflexivity.
  - destruct flat_run as (Hget & Hcalc & Hopt & Hlen).
    destruct (proj2 (main_on_failed_optimization vertex_gen stalled_minimize
                       flat_download "2025-01-01"
                       {| rng := 0%nat; output := [] |})
                    _ _ _ _ Hget Hcalc Hopt eq_refl Hlen) as [rest Hrest].
    eexists. exists rest. split; [| exact Hrest]. reflexivity.
Defined.

(** C8 fails as stated: with a solver that reports failure, [main] still
    prints the heading of the weights report and the weight of the first
    ticker. *)
Lemma failed_optimization_is_reported :
  exists price_data mean_returns cov_matrix optimal,
    get_price_data flat_download tickers "2024-11-12" "2025-01-01"
    = Returned price_data
    /\ calculate_returns price_data = Returned (mean_returns, cov_matrix)
    /\ optimize_portfolio stalled_minimize tickers mean_returns cov_matrix
       = Returned optimal
    /\ success optimal = false
    /\ exists weight rest,
         output (snd (main vertex_gen stalled_minimize flat_download
                           "2025-01-01" {| rng := 0%nat; output := [] |}))
         = print [Str "Optymalne wagi portfela:"]
           :: print [Str "AAVE-USD"; Str ": "; F4 weight] :: rest.
Proof.
  destruct flat_run as (Hget & Hcalc & Hopt & Hlen).
  do 4 eexists. split; [exact Hget |]. split; [exact Hcalc |].
  split; [exact Hopt |]. split; [reflexivity |].
  destruct (main_reports vertex_gen stalled_minimize flat_download
              "2025-01-01" {| rng := 0%nat; output := [] |}
              _ _ _ _ Hget Hcalc Hopt Hlen) as [rest Hrest].
  rewrite Hrest. cbn [output app x].
  destruct first_ticker as [others Hfirst].
  rewrite length_tickers, Hfirst.
  change 26%nat with (S 25). cbn [repeat combine map].
  unfold weight_line at 1. cbn [fst snd app]. do 2 eexists. reflexivity.
Qed.

(** * Further properties of the code *)

(** ** Price download *)

Lemma dict_getitem_missing {A : Type} (d : list (string * A)) (key : string) :
  (forall v, ~ In (key, v) d) -> dict_getitem d key = Raised "KeyError".
Proof.
  induction d as [| [k v] d IH]; intros Hno; [reflexivity |].
  cbn [dict_getitem]. destruct (String.eqb_spec k key) as [-> | Hne].
  - elim (Hno v). now left.
  - apply IH. intros v' Hin. apply (Hno v'). now right.
Qed.

Lemma dict_getitem_first {A : Type} (pre post : list (string * A))
  (key : string) (v : A) :
  (forall v', ~ In (key, v') pre) ->
  dict_getitem (pre ++ (key, v) :: post) key = Returned v.
Proof.
  induction pre as [| [k v0] pre IH]; intros Hno; cbn [app dict_getitem].
  - now rewrite String.eqb_refl.
  - destruct (String.eqb_spec k key) as [-> | Hne].
    + elim (Hno v0). now left.
    + apply IH. intros v' Hin. apply (Hno v'). now right.
Qed.

(** X1.  [get_price_data] hands back the table stored under [Adj Close] in
    what the download returned (the first such entry); when the download has
    no [Adj Close] entry it raises KeyError, and an exception of the download
    itself is passed on unchanged. *)
Theorem get_price_data_adj_close
  (yf_download : list string -> string -> string ->
                 outcome (list (string * pd.DataFrame)))
  (names : list string) (start_date end_date : string) :
  (forall e, yf_download names start_date end_date = Raised e ->
             get_price_data yf_download names start_date end_date = Raised e)
  /\ (forall downloaded,
         yf_download names start_date end_date = Returned downloaded ->
         (forall table, ~ In ("Adj Close", table) downloaded) ->
         get_price_data yf_download names start_date end_date
         = Raised "KeyError")
  /\ (forall pre table post,
         yf_download names start_date end_date
         = Returned (pre ++ ("Adj Close", table) :: post) ->
         (forall other, ~ In ("Adj Close", other) pre) ->
         get_price_data yf_download names start_date end_date
         = Returned table).
Proof.
  unfold get_price_data. repeat split.
  - intros e He. now rewrite He.
  - intros downloaded Hd Hno. rewrite Hd. cbn [bind].
    now rewrite dict_getitem_missing.
  - intros pre table post Hd Hno. rewrite Hd. cbn [bind].
    now rewrite dict_getitem_first.
Qed.

Lemma get_price_data_adj_close_witness :
  get_price_data empty_download ["AAVE-USD"] "2024-11-12" "2025-01-01"
  = Raised "KeyError"
  /\ get_price_data
       (fun _ _ _ => Returned [("Close", [[Fin 3]]); ("Adj Close", [[Fin 2]]);
                               ("Adj Close", [[Fin 5]])])
       ["AAVE-USD"] "2024-11-12" "2025-01-01"
     = Returned [[Fin 2]]
  /\ get_price_data (fun _ _ _ => Raised "ConnectionError")
       ["AAVE-USD"] "2024-11-12" "2025-01-01"
     = Raised "ConnectionError".
Proof.
  split; [| split].
  - apply (proj1 (proj2 (get_price_data_adj_close empty_download
                           ["AAVE-USD"] "2024-11-12" "2025-01-01")) []).
    + reflexivity.
    + intros table H. exact H.
  - apply (proj2 (proj2 (get_price_data_adj_close
                           (fun _ _ _ =>
                              Returned [("Close", [[Fin 3]]);
                                        ("Adj Close", [[Fin 2]]);
                                        ("Adj Close", [[Fin 5]])])
                           ["AAVE-USD"] "2024-11-12" "2025-01-01"))
                 [("Close", [[Fin 3]])] [[Fin 2]] [("Adj Close", [[Fin 5]])]).
    + reflexivity.
    + intros other [H | H]; [discriminate | exact H].
  - apply (proj1 (get_price_data_adj_close
                    (fun _ _ _ => Raised "ConnectionError")
                    ["AAVE-USD"] "2024-11-12" "2025-01-01")).
    reflexivity.
Defined.

(** ** Constrained optimizer *)

(** X2.  With an empty ticker list [optimize_portfolio] fails with
    ZeroDivisionError while building the starting weights [1. / 0]; the
    solver is not reached, whatever it would do. *)
Theorem optimize_portfolio_empty_universe
  (minimize : (list float64 -> outcome float64) -> list float64 -> string ->
              list (float64 * float64) -> constraint -> outcome OptimizeResult)
  (mean_returns : list float64) (cov_matrix : list (list float64)) :
  optimize_portfolio minimize [] mean_returns cov_matrix
  = Raised "ZeroDivisionError".
Proof. apply optimize_portfolio_no_assets. Qed.

(** X3.  With [n >= 1] tickers [optimize_portfolio] is one call of the
    solver, whose result or exception it passes on unchanged.  The solver
    gets the negative Sharpe ratio at risk-free rate 0.04 as objective, the
    uniform weights [1/n] as starting point, the method SLSQP, [n] bounds
    [(0, 1)] and the one equality constraint [sum(x) - 1].  The starting
    point has [n] entries (the number of tickers, whatever the length of
    [mean_returns]), and each of them lies within the bounds. *)
Theorem optimize_portfolio_uniform_start
  (minimize : (list float64 -> outcome float64) -> list float64 -> string ->
              list (float64 * float64) -> constraint -> outcome OptimizeResult)
  (names : list string)
  (mean_returns : list float64) (cov_matrix : list (list float64)) :
  (0 < length names)%nat ->
  let n := length names in
  let initial_weights := repeat (1 / INR n) n in
  let bounds := repeat (Fin 0, Fin 1) n in
  let constraints :=
    {| type := "eq"; constraint_fun := fun x => fsub (np_sum x) (Fin 1) |} in
  optimize_portfolio minimize names mean_returns cov_matrix
  = minimize (fun x => neg_sharpe_ratio x mean_returns cov_matrix
                                        (Some (Fin (4 / 100))))
             (lift initial_weights) "SLSQP" bounds constraints
  /\ length (lift initial_weights) = n
  /\ length bounds = n
  /\ Forall (fun v => 0 <= v <= 1) initial_weights.
Proof.
  intros Hn n initial_weights bounds constraints.
  split; [| split; [| split]].
  - now apply optimize_portfolio_call.
  - unfold initial_weights. now rewrite length_lift, repeat_length.
  - apply repeat_length.
  - exact (proj2 (initial_weights_feasible n Hn)).
Qed.

Lemma optimize_portfolio_uniform_start_witness :
  optimize_portfolio probing_minimize ["BTC-USD"; "ETH-USD"] [] []
  = Returned {| x := lift (repeat (1 / INR 2) 2); success := false;
                fun_ := fsub (np_sum (lift [3; 4])) (Fin 1) |}
  /\ optimize_portfolio refusing_minimize ["BTC-USD"; "ETH-USD"] [] []
     = Raised "SolverCalled".
Proof.
  assert (Hn : (0 < length ["BTC-USD"; "ETH-USD"])%nat) by (simpl; lia).
  split.
  - exact (proj1 (optimize_portfolio_uniform_start probing_minimize
                    ["BTC-USD"; "ETH-USD"] [] [] Hn)).
  - exact (proj1 (optimize_portfolio_uniform_start refusing_minimize
                    ["BTC-USD"; "ETH-USD"] [] [] Hn)).
Defined.

(** ** Objective functions: shapes and degenerate values *)

(** X4.  The objective functions return exactly when the shapes agree and
    raise ValueError otherwise: [portfolio_volatility] needs a covariance
    matrix that is [n] by [n] for [n] weights, [neg_sharpe_ratio] needs in
    addition [n] mean returns.  They raise nothing else. *)
Theorem objective_functions_shapes
  (weights mean_returns : list float64) (cov_matrix : list (list float64))
  (risk_free_rate : option float64) :
  let q := inner weights (map (fun row => inner row weights) cov_matrix) in
  (conformable weights cov_matrix ->
   portfolio_volatility weights mean_returns cov_matrix
   = Returned (np_sqrt q))
  /\ (~ conformable weights cov_matrix ->
      portfolio_volatility weights mean_returns cov_matrix
      = Raised "ValueError")
  /\ (length weights = length mean_returns ->
      conformable weights cov_matrix ->
      neg_sharpe_ratio weights mean_returns cov_matrix risk_free_rate
      = Returned (fdiv (fneg (fsub (inner weights mean_returns)
                                   (keyword (Fin (4 / 100)) risk_free_rate)))
                       (np_sqrt q)))
  /\ (length weights <> length mean_returns
      \/ ~ conformable weights cov_matrix ->
      neg_sharpe_ratio weights mean_returns cov_matrix risk_free_rate
      = Raised "ValueError").
Proof.
  intros q. unfold portfolio_volatility, neg_sharpe_ratio.
  pose proof (quadratic_form_cases weights cov_matrix) as Hq.
  repeat split.
  - intros Hc. destruct Hq as [[_ Hq] | [Hn _]]; [| contradiction].
    destruct (np_dot_2d cov_matrix weights); cbn [bind] in *;
      [now rewrite Hq | discriminate].
  - intros Hc. destruct Hq as [[Hy _] | [_ Hq]]; [contradiction |].
    destruct (np_dot_2d cov_matrix weights); cbn [bind] in *;
      [now rewrite Hq | exact Hq].
  - intros Hlen Hc. rewrite np_dot_same by assumption. cbn [bind].
    destruct Hq as [[_ Hq] | [Hn _]]; [| contradiction].
    destruct (np_dot_2d cov_matrix weights); cbn [bind] in *;
      [now rewrite Hq | discriminate].
  - intros [Hlen | Hc].
    + now rewrite np_dot_mismatch.
    + destruct (Nat.eq_dec (length weights) (length mean_returns)) as [Hl | Hl];
        [| now rewrite np_dot_mismatch].
      rewrite np_dot_same by assumption. cbn [bind].
      destruct Hq as [[Hy _] | [_ Hq]]; [contradiction |].
      destruct (np_dot_2d cov_matrix weights); cbn [bind] in *;
        [now rewrite Hq | exact Hq].
Qed.

Lemma objective_functions_shapes_witness :
  portfolio_volatility [Fin 1; Fin 0] [] [[Fin 4; Fin 0]; [Fin 0; Fin 9]]
  = Returned (np_sqrt (inner [Fin 1; Fin 0]
                             [inner [Fin 4; Fin 0] [Fin 1; Fin 0];
                              inner [Fin 0; Fin 9] [Fin 1; Fin 0]]))
  /\ portfolio_volatility [Fin 1; Fin 0] [] [[Fin 4; Fin 0]]
     = Raised "ValueError"
  /\ neg_sharpe_ratio [Fin 1; Fin 0] [Fin 1]
                      [[Fin 4; Fin 0]; [Fin 0; Fin 9]] None
     = Raised "ValueError".
Proof.
  split; [| split].
  - apply (proj1 (objective_functions_shapes [Fin 1; Fin 0] []
                    [[Fin 4; Fin 0]; [Fin 0; Fin 9]] None)).
    split; [reflexivity | repeat constructor].
  - apply (proj1 (proj2 (objective_functions_shapes [Fin 1; Fin 0] []
                           [[Fin 4; Fin 0]] None))).
    intros [H _]. discriminate.
  - apply (proj2 (proj2 (proj2 (objective_functions_shapes [Fin 1; Fin 0]
                                  [Fin 1] [[Fin 4; Fin 0]; [Fin 0; Fin 9]]
                                  None)))).
    left. simpl. lia.
Defined.



(** ** Returns engine: shape, symmetry, short tables *)

Lemma calculate_returns_shaped (price_data : pd.DataFrame) :
  exists mean_returns cov_matrix,
    calculate_returns price_data = Returned (mean_returns, cov_matrix)
    /\ shaped (length price_data) mean_returns cov_matrix.
Proof.
  unfold calculate_returns. eexists. eexists. split; [reflexivity |].
  unfold shaped, pd.scale_frame, pd.scale, pd.mean, pd.cov, pd.dropna,
    pd.pct_change.
  repeat split.
  - now rewrite !length_map.
  - now rewrite !length_map.
  - rewrite !map_map. apply Forall_map, Forall_forall. intros a _.
    now rewrite !length_map.
Qed.

(** X6.  Whatever the price table, [calculate_returns] returns one mean per
    column and a covariance matrix with one row and one column per column of
    the table, so both objective functions accept its output with any weight
    vector that has one weight per column: they return a value and do not
    raise. *)
Theorem calculate_returns_feeds_objectives
  (price_data : pd.DataFrame) (weights : list float64)
  (risk_free_rate : option float64) :
  length weights = length price_data ->
  exists mean_returns cov_matrix value volatility,
    calculate_returns price_data = Returned (mean_returns, cov_matrix)
    /\ length mean_returns = length price_data
    /\ length cov_matrix = length price_data
    /\ Forall (fun row => length row = length price_data) cov_matrix
    /\ neg_sharpe_ratio weights mean_returns cov_matrix risk_free_rate
       = Returned value
    /\ portfolio_volatility weights mean_returns cov_matrix
       = Returned volatility.
Proof.
  intros Hw.
  destruct (calculate_returns_shaped price_data)
    as (m & c & Hcalc & Hm & Hc & Hrows).
  assert (Hconf : conformable weights c).
  { split; [congruence |]. eapply Forall_impl; [| exact Hrows].
    intros row Hr. simpl in *. congruence. }
  exists m, c. eexists. eexists.
  split; [exact Hcalc |]. split; [exact Hm |]. split; [exact Hc |].
  split; [exact Hrows |]. split.
  - apply neg_sharpe_ratio_returns; [congruence | exact Hconf].
  - now apply portfolio_volatility_returns.
Qed.

Lemma calculate_returns_feeds_objectives_witness :
  exists mean_returns cov_matrix value volatility,
    calculate_returns [[Fin 1; NaN; Fin 3]; [Fin 2; Fin 2; PInf]]
    = Returned (mean_returns, cov_matrix)
    /\ length mean_returns = 2%nat
    /\ length cov_matrix = 2%nat
    /\ Forall (fun row => length row = 2%nat) cov_matrix
    /\ neg_sharpe_ratio [Fin 1; Fin 0] mean_returns cov_matrix None
       = Returned value
    /\ portfolio_volatility [Fin 1; Fin 0] mean_returns cov_matrix
       = Returned volatility.
Proof.
  exact (calculate_returns_feeds_objectives
           [[Fin 1; NaN; Fin 3]; [Fin 2; Fin 2; PInf]] [Fin 1; Fin 0] None
           eq_refl).
Defined.

Lemma sgn_mul_comm (a b : comparison) : sgn_mul a b = sgn_mul b a.
Proof. now destruct a, b. Qed.

Lemma fmul_comm (a b : float64) : fmul a b = fmul b a.
Proof.
  destruct a as [x | | |], b as [y | | |]; cbn [fmul]; try reflexivity;
    try (now rewrite sgn_mul_comm).
  f_equal. ring.
Qed.

Lemma zip_with_swap {A B C : Type} (f : A -> B -> C) (xs : list A)
  (ys : list B) :
  zip_with f xs ys = zip_with (fun y x => f x y) ys xs.
Proof.
  revert ys. induction xs as [| x xs IH]; intros [| y ys]; simpl;
    try reflexivity.
  now rewrite IH.
Qed.

Lemma zip_with_ext {A B C : Type} (f g : A -> B -> C) (xs : list A)
  (ys : list B) :
  (forall x y, f x y = g x y) -> zip_with f xs ys = zip_with g xs ys.
Proof.
  intros H. revert ys. induction xs as [| x xs IH]; intros [| y ys]; simpl;
    try reflexivity.
  now rewrite H, IH.
Qed.

Lemma filter_combine_swap (a b : list float64) :
  filter (fun p => notna (fst p) && notna (snd p)) (combine b a)
  = map (fun p => (snd p, fst p))
        (filter (fun p => notna (fst p) && notna (snd p)) (combine a b)).
Proof.
  revert b. induction a as [| x a IH]; intros [| y b]; try reflexivity.
  cbn [combine filter fst snd]. rewrite IH, (andb_comm (notna y)).
  now destruct (notna x && notna y).
Qed.

(** The covariance of two columns does not depend on their order. *)
Lemma cov_pair_comm (a b : pd.Series) : pd.cov_pair a b = pd.cov_pair b a.
Proof.
  unfold pd.cov_pair. rewrite (filter_combine_swap a b).
  set (both := filter (fun p => notna (fst p) && notna (snd p)) (combine a b)).
  rewrite !map_map, length_map. cbn [fst snd].
  rewrite (zip_with_swap _ (map snd both) (map fst both)).
  f_equal. f_equal. apply zip_with_ext. intros u v. apply fmul_comm.
Qed.

(** X7.  The covariance matrix returned by [calculate_returns] is
    symmetric, for every price table: entry [(i, j)] and entry [(j, i)]
    agree (and neither exists when an index is out of range). *)
Theorem calculate_returns_covariance_symmetric
  (price_data : pd.DataFrame) (mean_returns : list float64)
  (cov_matrix : list (list float64)) (i j : nat) :
  calculate_returns price_data = Returned (mean_returns, cov_matrix) ->
  entry cov_matrix i j = entry cov_matrix j i.
Proof.
  unfold calculate_returns. intros H. injection H as _ <-.
  set (returns := pd.dropna (pd.pct_change price_data)).
  unfold entry, pd.scale_frame, pd.scale, pd.cov.
  rewrite !map_map, !nth_error_map.
  destruct (nth_error returns i) as [a |] eqn:Hi,
           (nth_error returns j) as [b |] eqn:Hj; cbn [option_map];
    rewrite ?map_map, ?nth_error_map, ?Hi, ?Hj; cbn [option_map];
    try reflexivity.
  now rewrite (cov_pair_comm a b).
Qed.

Lemma calculate_returns_covariance_symmetric_witness :
  exists mean_returns cov_matrix,
    calculate_returns [[Fin 1; Fin 2; Fin 4]; [Fin 5; NaN; Fin 10]]
    = Returned (mean_returns, cov_matrix)
    /\ entry cov_matrix 0 1 = entry cov_matrix 1 0.
Proof.
  eexists. eexists. split; [reflexivity |].
  eapply (calculate_returns_covariance_symmetric
            [[Fin 1; Fin 2; Fin 4]; [Fin 5; NaN; Fin 10]]).
  reflexivity.
Defined.




(** ** NaN reaches the objective *)

Lemma fold_fadd_nan (xs : list float64) : fold_left fadd xs NaN = NaN.
Proof. induction xs as [| a xs IH]; [reflexivity | exact IH]. Qed.

Lemma np_sum_repeat_nan (n : nat) :
  (0 < n)%nat -> np_sum (repeat NaN n) = NaN.
Proof.
  destruct n as [| n]; [lia |]. intros _. unfold np_sum. cbn [repeat fold_left].
  apply fold_fadd_nan.
Qed.

Lemma fmul_nan_r (a : float64) : fmul a NaN = NaN.
Proof. now destruct a. Qed.

Lemma zip_fmul_nan_r (w : list float64) :
  zip_with fmul w (repeat NaN (length w)) = repeat NaN (length w).
Proof.
  induction w as [| a w IH]; [reflexivity |].
  cbn [length repeat zip_with]. now rewrite fmul_nan_r, IH.
Qed.

Lemma zip_fmul_nan_l (w : list float64) :
  zip_with fmul (repeat NaN (length w)) w = repeat NaN (length w).
Proof.
  induction w as [| a w IH]; [reflexivity |].
  cbn [length repeat zip_with]. now rewrite IH.
Qed.

Lemma inner_nan_r (w : list float64) :
  (0 < length w)%nat -> inner w (repeat NaN (length w)) = NaN.
Proof.
  intros H. unfold inner. rewrite zip_fmul_nan_r. now apply np_sum_repeat_nan.
Qed.

Lemma inner_nan_l (w : list float64) :
  (0 < length w)%nat -> inner (repeat NaN (length w)) w = NaN.
Proof.
  intros H. unfold inner. rewrite zip_fmul_nan_l. now apply np_sum_repeat_nan.
Qed.

(** X9.  Too little data is silent all the way to the solver's objective:
    for a price table with at least one asset and fewer than two
    observations per asset, the mean returns and covariance matrix that
    [calculate_returns] produces make [portfolio_volatility] and
    [neg_sharpe_ratio] return NaN for every weight vector with one weight
    per asset. *)
Theorem insufficient_data_gives_nan_objective
  (periods : nat) (price_data : pd.DataFrame) (weights : list float64)
  (risk_free_rate : option float64) :
  Forall (fun column => length column = periods) price_data ->
  (periods < 2)%nat ->
  (0 < length price_data)%nat ->
  length weights = length price_data ->
  exists mean_returns cov_matrix,
    calculate_returns price_data = Returned (mean_returns, cov_matrix)
    /\ portfolio_volatility weights mean_returns cov_matrix = Returned NaN
    /\ neg_sharpe_ratio weights mean_returns cov_matrix risk_free_rate
       = Returned NaN.
Proof.
  intros Hrect Hshort Hpos Hw.
  exists (repeat NaN (length price_data)),
         (repeat (repeat NaN (length price_data)) (length price_data)).
  split; [now apply (calculate_returns_short periods) |].
  rewrite <- Hw in *.
  assert (Hconf : conformable weights
                    (repeat (repeat NaN (length weights)) (length weights))).
  { split; [apply repeat_length |]. apply Forall_forall. intros row Hrow.
    apply repeat_spec in Hrow. subst row. apply repeat_length. }
  assert (Hq : inner weights
                 (map (fun row => inner row weights)
                      (repeat (repeat NaN (length weights)) (length weights)))
               = NaN).
  { rewrite map_repeat, inner_nan_l by assumption. now apply inner_nan_r. }
  split.
  - rewrite portfolio_volatility_returns by assumption. now rewrite Hq.
  - rewrite neg_sharpe_ratio_returns
      by (try assumption; now rewrite repeat_length).
    rewrite Hq, inner_nan_r by assumption. reflexivity.
Qed.

Lemma insufficient_data_gives_nan_objective_witness :
  exists mean_returns cov_matrix,
    calculate_returns [[Fin 100]; [Fin 200]]
    = Returned (mean_returns, cov_matrix)
    /\ portfolio_volatility [Fin (1 / 2); Fin (1 / 2)] mean_returns cov_matrix
       = Returned NaN
    /\ neg_sharpe_ratio [Fin (1 / 2); Fin (1 / 2)] mean_returns cov_matrix None
       = Returned NaN.
Proof.
  apply (insufficient_data_gives_nan_objective 1 [[Fin 100]; [Fin 200]]
           [Fin (1 / 2); Fin (1 / 2)] None).
  - repeat constructor.
  - lia.
  - simpl. lia.
  - reflexivity.
Defined.

(** ** Sampled portfolios *)



(** ** The frontier plot on badly shaped arguments *)

Lemma num_portfolios_seq :
  exists k, seq 0 num_portfolios = 0%nat :: seq 1 k.
Proof.
  destruct num_portfolios_positive as [k Hk]. exists k. now rewrite Hk.
Qed.

(** X13.  [plot_efficient_frontier] draws nothing when its arguments do not
    fit together; it fails with ValueError.  If the covariance matrix is not
    [n] by [n] for [n] mean returns, the failure comes in the first pass of
    the sampling loop, after a single draw from the global generator.  If
    only [optimal_weights] has the wrong length, all 10,000 portfolios are
    sampled first (the generator is left 10,000 draws further) and the
    failure comes before the first plotting call. *)
Theorem plot_efficient_frontier_bad_shapes {rng_state : Type}
  (gen : list float64 -> rng_state -> list float64 * rng_state)
  (mean_returns : list float64) (cov_matrix : list (list float64))
  (optimal_weights : list float64) (w : world rng_state) :
  dimension_preserving gen ->
  let n := length mean_returns in
  (~ (length cov_matrix = n /\ Forall (fun row => length row = n) cov_matrix) ->
   plot_efficient_frontier gen mean_returns cov_matrix optimal_weights w
   = (Raised "ValueError",
      {| rng := snd (gen (np_ones n) (rng w)); output := output w |}))
  /\ (shaped n mean_returns cov_matrix ->
      length optimal_weights <> n ->
      plot_efficient_frontier gen mean_returns cov_matrix optimal_weights w
      = (Raised "ValueError",
         {| rng := snd (draws gen (np_ones n) num_portfolios (rng w));
            output := output w |})).
Proof.
  intros Hdim n. split.
  - intros Hbad. unfold plot_efficient_frontier, frontier_results. cbv zeta.
    destruct num_portfolios_seq as [k Hseq]. rewrite Hseq. cbn [for_each].
    apply pbind_raised, pbind_raised. unfold frontier_body.
    rewrite (pbind_returned _ _ _ _ _ (dirichlet_run gen (np_ones n) w)).
    set (weights := fst (gen (np_ones n) (rng w))).
    assert (Hw : length weights = n).
    { unfold weights. rewrite Hdim. apply repeat_length. }
    rewrite (pbind_eval _ _ _ (inner weights mean_returns))
      by (apply np_dot_same; exact Hw).
    assert (Hnc : ~ conformable weights cov_matrix).
    { unfold conformable. rewrite Hw. exact Hbad. }
    destruct (quadratic_form_cases weights cov_matrix) as [[Hc _] | [_ Hq]];
      [contradiction |].
    destruct (np_dot_2d cov_matrix weights) as [cw | e] eqn:Hcw;
      cbn [bind] in Hq.
    + rewrite (pbind_eval _ _ _ cw) by reflexivity.
      now apply pbind_eval_raised.
    + apply pbind_eval_raised. now injection Hq as ->.
  - intros Hshape Hlen. unfold plot_efficient_frontier.
    rewrite (pbind_returned _ _ _ _ _
               (frontier_results_run gen mean_returns cov_matrix w
                  Hshape Hdim)).
    apply pbind_eval_raised, np_dot_mismatch. exact Hlen.
Qed.

Lemma plot_efficient_frontier_bad_shapes_witness :
  plot_efficient_frontier vertex_gen [Fin 1; Fin 2] [[Fin 1; Fin 0]]
    [Fin 1; Fin 0] {| rng := 0%nat; output := [] |}
  = (Raised "ValueError", {| rng := 1%nat; output := [] |})
  /\ plot_efficient_frontier vertex_gen [Fin 1; Fin 2]
       [[Fin 1; Fin 0]; [Fin 0; Fin 1]] [Fin 1]
       {| rng := 0%nat; output := [] |}
     = (Raised "ValueError",
        {| rng := snd (draws vertex_gen (np_ones 2) num_portfolios 0%nat);
           output := [] |}).
Proof.
  split.
  - apply (proj1 (plot_efficient_frontier_bad_shapes vertex_gen
                    [Fin 1; Fin 2] [[Fin 1; Fin 0]] [Fin 1; Fin 0]
                    {| rng := 0%nat; output := [] |} vertex_gen_dimension)).
    intros [H _]. discriminate.
  - apply (proj2 (plot_efficient_frontier_bad_shapes vertex_gen
                    [Fin 1; Fin 2] [[Fin 1; Fin 0]; [Fin 0; Fin 1]] [Fin 1]
                    {| rng := 0%nat; output := [] |} vertex_gen_dimension)).
    + exact identity_shaped.
    + simpl. lia.
Defined.

(** ** A complete run of the pipeline *)

(** X14.  When the download yields one price column per ticker and the
    solver returns one weight per ticker, [main] raises nothing and its
    output is, in this order: the heading, one weight line per ticker, the
    expected return and the volatility of the solver's weights, the chart
    with that single point, and the frontier chart of the 10,000 sampled
    points with the same optimum marked.  The run leaves the global
    generator exactly 10,000 draws further. *)
Theorem main_complete_run {rng_state : Type}
  (gen : list float64 -> rng_state -> list float64 * rng_state)
  (minimize : (list float64 -> outcome float64) -> list float64 -> string ->
              list (float64 * float64) -> constraint -> outcome OptimizeResult)
  (yf_download : list string -> string -> string ->
                 outcome (list (string * pd.DataFrame)))
  (now : string) (w : world rng_state)
  (price_data : pd.DataFrame) (mean_returns : list float64)
  (cov_matrix : list (list float64)) (optimal : OptimizeResult) :
  get_price_data yf_download tickers "2024-11-12" now = Returned price_data ->
  calculate_returns price_data = Returned (mean_returns, cov_matrix) ->
  optimize_portfolio minimize tickers mean_returns cov_matrix
  = Returned optimal ->
  length price_data = length tickers ->
  length (x optimal) = length tickers ->
  dimension_preserving gen ->
  let optimum := frontier_point mean_returns cov_matrix (x optimal) in
  let drawn :=
    draws gen (np_ones (length mean_returns)) num_portfolios (rng w) in
  let points := map (frontier_point mean_returns cov_matrix) (fst drawn) in
  main gen minimize yf_download now w
  = (Returned tt,
     {| rng := snd drawn;
        output :=
          output w
          ++ print [Str "Optymalne wagi portfela:"]
             :: map weight_line (combine tickers (x optimal))
          ++ [print [Str (newline ++ "Oczekiwany zwrot: ")%string;
                     F4 (expectedReturn optimum)];
              print [Str "Ryzyko (zmienność): "; F4 (volatility optimum)];
              plt_scatter [volatility optimum] [expectedReturn optimum]
                          None None;
              plt_title "Optymalizacja portfela";
              plt_xlabel "Ryzyko (zmienność)";
              plt_ylabel "Oczekiwany zwrot";
              plt_grid;
              plt_show]
          ++ frontier_plot points optimum |}).
Proof.
  intros Hget Hcalc Hopt Hcols Hx Hdim optimum drawn points.
  destruct (calculate_returns_shaped price_data)
    as (m & c & Hcalc' & Hshape).
  rewrite Hcalc in Hcalc'. injection Hcalc' as <- <-.
  pose proof Hshape as (Hm & Hc & Hrows).
  assert (Hxm : length (x optimal) = length mean_returns) by congruence.
  assert (Hconf : conformable (x optimal) cov_matrix).
  { split; [congruence |]. eapply Forall_impl; [| exact Hrows].
    intros row Hr. simpl in *. congruence. }
  unfold main; cbv zeta.
  rewrite (pbind_eval _ _ _ _ Hget), (pbind_eval _ _ _ _ Hcalc).
  cbv beta iota.
  rewrite (pbind_eval _ _ _ _ Hopt), pbind_emit.
  unfold enumerate.
  erewrite pbind_returned;
    [| apply (print_weights_run optimal tickers [] (x optimal));
       [reflexivity | exact Hx] ].
  cbn [rng output].
  rewrite (pbind_eval _ _ _ (inner (x optimal) mean_returns))
    by now apply np_dot_same.
  rewrite (pbind_eval _ _ _ _
             (portfolio_volatility_returns (x optimal) mean_returns
                cov_matrix Hconf)).
  rewrite !pbind_emit. cbn [rng output].
  rewrite <- Hm in Hshape.
  rewrite (plot_efficient_frontier_run gen mean_returns cov_matrix
             (x optimal) _ Hshape Hdim Hxm).
  cbn [rng output]. fold drawn. fold points.
  unfold optimum, frontier_point. cbn [expectedReturn volatility].
  f_equal. f_equal. rewrite <- !app_assoc. cbn [app]. reflexivity.
Qed.

Lemma main_complete_run_witness :
  exists mean_returns cov_matrix optimal,
    let optimum := frontier_point mean_returns cov_matrix (x optimal) in
    let drawn :=
      draws vertex_gen (np_ones (length mean_returns)) num_portfolios 0%nat in
    let points := map (frontier_point mean_returns cov_matrix) (fst drawn) in
    main vertex_gen stalled_minimize flat_download "2025-01-01"
         {| rng := 0%nat; output := [] |}
    = (Returned tt,
       {| rng := snd drawn;
          output :=
            print [Str "Optymalne wagi portfela:"]
            :: map weight_line (combine tickers (x optimal))
            ++ [print [Str (newline ++ "Oczekiwany zwrot: ")%string;
                       F4 (expectedReturn optimum)];
                print [Str "Ryzyko (zmienność): "; F4 (volatility optimum)];
                plt_scatter [volatility optimum] [expectedReturn optimum]
                            None None;
                plt_title "Optymalizacja portfela";
                plt_xlabel "Ryzyko (zmienność)";
                plt_ylabel "Oczekiwany zwrot";
                plt_grid;
                plt_show]
            ++ frontier_plot points optimum |}).
Proof.
  destruct flat_run as (Hget & Hcalc & Hopt & Hlen).
  do 3 eexists.
  apply (main_complete_run vertex_gen stalled_minimize flat_download
           "2025-01-01" {| rng := 0%nat; output := [] |}
           _ _ _ _ Hget Hcalc Hopt).
  - apply length_map.
  - exact Hlen.
  - exact vertex_gen_dimension.
Defined.

(** ** The sampler's Sharpe ratio against the optimizer's objective *)




